(** * dom-with-styles: a shallow embedding of [src/index.js] and
    [src/domObserver.js], and the properties of the snapshot engine.

  The embedding follows the source function by function.  The browser
  objects the code talks to (the live DOM, [window.sessionStorage],
  [fetch], the CSS parser, [querySelectorAll], [XMLSerializer]) are
  modelled by their observable behaviour at the calls the source makes. *)

From Stdlib Require Import ZArith String Ascii List Bool Lia.
From stdpp Require Import base option list strings gmap pretty.

Local Set Warnings "-register-all".

Local Open Scope string_scope.
Local Open Scope Z_scope.

(** ** JavaScript strings and values *)

Module Js.

(** The values the guards of the source compare: [undefined], [null],
    strings and object references. *)
Inductive value : Type :=
| Undefined
| Null
| Str (s : string)
| Obj (ref : nat).

(** [typeof v]: always a string. *)
Definition typeof (v : value) : value :=
  match v with
  | Undefined => Str "undefined"
  | Null => Str "object"
  | Str _ => Str "string"
  | Obj _ => Str "object"
  end.

(** [a === b] on these values. *)
Definition strictEquals (a b : value) : bool :=
  match a, b with
  | Undefined, Undefined => true
  | Null, Null => true
  | Str s, Str t => String.eqb s t
  | Obj r, Obj r' => Nat.eqb r r'
  | _, _ => false
  end.

(** Truthiness of a string: the empty string is falsy. *)
Definition truthy (s : string) : bool :=
  match s with
  | EmptyString => false
  | String _ _ => true
  end.

(** Truthiness of a value that is a string or [null]
    ([getAttribute], [getItem]). *)
Definition truthyOpt (o : option string) : bool :=
  match o with
  | None => false
  | Some s => truthy s
  end.

(** [String(v)] for a string-or-null value. *)
Definition toStringOpt (o : option string) : string :=
  match o with
  | None => "null"
  | Some s => s
  end.

(** [s.charCodeAt(i)] for the character [c] found at position [i]. *)
Definition charCode (c : ascii) : Z := Z.of_N (N_of_ascii c).

Definition lowerChar (c : ascii) : ascii :=
  let n := N_of_ascii c in
  if ((65 <=? n) && (n <=? 90))%N then ascii_of_N (n + 32) else c.

Definition upperChar (c : ascii) : ascii :=
  let n := N_of_ascii c in
  if ((97 <=? n) && (n <=? 122))%N then ascii_of_N (n - 32) else c.

Fixpoint mapChars (f : ascii -> ascii) (s : string) : string :=
  match s with
  | EmptyString => EmptyString
  | String c rest => String (f c) (mapChars f rest)
  end.

(** Strings are held as their UTF-8 bytes.  The characters outside ASCII
    whose upper-case form is made of ASCII letters, by their bytes:
    U+017F (long s), U+0131 (dotless i), U+00DF (sharp s) and the
    ligatures U+FB00 to U+FB06. *)
Definition upperOfTwo (b1 b2 : N) : option string :=
  if ((b1 =? 197) && (b2 =? 191))%N then Some "S"
  else if ((b1 =? 196) && (b2 =? 177))%N then Some "I"
  else if ((b1 =? 195) && (b2 =? 159))%N then Some "SS"
  else None.

Definition upperOfThree (b1 b2 b3 : N) : option string :=
  if ((b1 =? 239) && (b2 =? 172))%N then
    if (b3 =? 128)%N then Some "FF"
    else if (b3 =? 129)%N then Some "FI"
    else if (b3 =? 130)%N then Some "FL"
    else if (b3 =? 131)%N then Some "FFI"
    else if (b3 =? 132)%N then Some "FFL"
    else if (b3 =? 133)%N then Some "ST"
    else if (b3 =? 134)%N then Some "ST"
    else None
  else None.

(** The one character outside ASCII whose lower-case form is an ASCII
    letter: U+212A (the Kelvin sign). *)
Definition lowerOfThree (b1 b2 b3 : N) : option string :=
  if ((b1 =? 226) && (b2 =? 132) && (b3 =? 170))%N then Some "k" else None.

(** [s.toUpperCase()].  ASCII letters and the characters above are
    mapped as the browser maps them; the other characters outside ASCII,
    whose upper-case form holds a character outside ASCII, are left as
    they are.  The result therefore equals a string of ASCII characters
    exactly when the browser's does. *)
Fixpoint toUpperCase (s : string) : string :=
  match s with
  | EmptyString => EmptyString
  | String c rest =>
      match rest with
      | String c2 rest2 =>
          match upperOfTwo (N_of_ascii c) (N_of_ascii c2) with
          | Some out => out ++ toUpperCase rest2
          | None =>
              match rest2 with
              | String c3 rest3 =>
                  match upperOfThree (N_of_ascii c) (N_of_ascii c2) (N_of_ascii c3) with
                  | Some out => out ++ toUpperCase rest3
                  | None => String (upperChar c) (toUpperCase rest)
                  end
              | EmptyString => String (upperChar c) (toUpperCase rest)
              end
          end
      | EmptyString => String (upperChar c) EmptyString
      end
  end.

(** [s.toLowerCase()], in the same way. *)
Fixpoint toLowerCase (s : string) : string :=
  match s with
  | EmptyString => EmptyString
  | String c rest =>
      match rest with
      | String c2 (String c3 rest3) =>
          match lowerOfThree (N_of_ascii c) (N_of_ascii c2) (N_of_ascii c3) with
          | Some out => out ++ toLowerCase rest3
          | None => String (lowerChar c) (toLowerCase rest)
          end
      | _ => String (lowerChar c) (toLowerCase rest)
      end
  end.

(** Every byte is below 128. *)
Fixpoint isAscii (s : string) : bool :=
  match s with
  | EmptyString => true
  | String c rest => (N_of_ascii c <? 128)%N && isAscii rest
  end.

(** [hay.indexOf(needle)]: first position, or [-1]. *)
Fixpoint indexOfFrom (needle hay : string) (i : Z) : Z :=
  if String.prefix needle hay then i
  else match hay with
       | EmptyString => -1
       | String _ rest => indexOfFrom needle rest (i + 1)
       end.

Definition indexOf (hay needle : string) : Z := indexOfFrom needle hay 0.

(** [s.split(sep)] for a one-character separator. *)
Fixpoint split (sep : ascii) (s : string) : list string :=
  match s with
  | EmptyString => [EmptyString]
  | String c rest =>
      if Ascii.eqb c sep then EmptyString :: split sep rest
      else match split sep rest with
           | [] => [String c EmptyString]
           | w :: ws => String c w :: ws
           end
  end.

(** [arr.join(sep)]. *)
Fixpoint join (sep : string) (l : list string) : string :=
  match l with
  | [] => EmptyString
  | [x] => x
  | x :: rest => x ++ sep ++ join sep rest
  end.

(** [arr.sort()] without a comparator: the elements are ordered by
    their string conversions. *)
Section Sort.
Context {A : Type} (toStr : A -> string).

Fixpoint insertSorted (x : A) (l : list A) : list A :=
  match l with
  | [] => [x]
  | y :: rest =>
      if String.leb (toStr x) (toStr y) then x :: l
      else y :: insertSorted x rest
  end.

Definition sort (l : list A) : list A := fold_right insertSorted [] l.
End Sort.

End Js.

(** ** The live document *)

Module Dom.

(** [window.getComputedStyle(node, null)]: the properties in index
    order, each with its value. *)
Definition CSSStyleDeclaration : Type := list (string * string).

Record Element : Type := mkElement {
  tagName : string;
  attributes : gmap string string;
  (** the live computed style of the element *)
  computed : CSSStyleDeclaration;
  (** [node.style], the declarations of the inline style attribute;
      [None] for an element without that property *)
  style : option (gmap string string);
  (** the [width] and [height] properties of an image element *)
  width : N;
  height : N;
  (** the script property [class] (not the attribute) *)
  classProperty : option string
}.

Inductive Node : Type :=
| Elem (e : Element) (childNodes : list Node)
| Text (data : string)
| Comment (data : string).

Definition TEXT_NODE : Z := 3.

Definition nodeType (n : Node) : Z :=
  match n with
  | Elem _ _ => 1
  | Text _ => 3
  | Comment _ => 8
  end.

(** [node.nodeValue]: [None] stands for [null], the value on elements. *)
Definition nodeValue (n : Node) : option string :=
  match n with
  | Elem _ _ => None
  | Text data => Some data
  | Comment data => Some data
  end.

(** [node.tagName]: [None] stands for [undefined]. *)
Definition nodeTagName (n : Node) : option string :=
  match n with
  | Elem e _ => Some (tagName e)
  | _ => None
  end.

Definition isElement (n : Node) : bool :=
  match n with
  | Elem _ _ => true
  | _ => false
  end.

(** [node.getAttribute(name)]: [None] stands for [null]. *)
Definition getAttribute (e : Element) (name : string) : option string :=
  attributes e !! name.

(** The element siblings of a child: [previousElementSibling] and
    [nextElementSibling], [None] for [null]. *)
Record Siblings : Type := mkSiblings {
  previousElementSibling : option Node;
  nextElementSibling : option Node
}.

Definition noSiblings : Siblings := mkSiblings None None.

(** The first element of a run of following siblings. *)
Definition firstElement (l : list Node) : option Node :=
  List.find isElement l.

(** [decl.length], [decl.item(i)], [decl.getPropertyValue(name)]. *)
Definition declLength (d : CSSStyleDeclaration) : nat := List.length d.

Definition declItem (d : CSSStyleDeclaration) (i : nat) : string :=
  match nth_error d i with
  | Some (name, _) => name
  | None => ""
  end.

Fixpoint declValue (d : CSSStyleDeclaration) (name : string) : string :=
  match d with
  | [] => ""
  | (k, v) :: rest => if String.eqb k name then v else declValue rest name
  end.

End Dom.

(** ** The page: live document, window state and platform services *)

Module Browser.
Import Dom.

(** What a [throw] carries; [String(e)] is [name: message]. *)
Record Error : Type := mkError {
  errorName : string;
  errorMessage : string
}.

Definition errorToString (e : Error) : string :=
  errorName e ++ ": " ++ errorMessage e.

(** A CSS rule: [selectorText] is [None] ([undefined]) on rules that
    have no selector, such as [@media]. *)
Record CSSRule : Type := mkRule {
  selectorText : option string;
  cssText : string
}.

(** An entry of [document.styleSheets]: [cssRules] is [None] when
    reading it throws (a cross-origin sheet). *)
Record StyleSheet : Type := mkSheet {
  cssRules : option (list CSSRule);
  href : option string
}.

(** A fetch response; [responseText] is [None] when [response.text()]
    rejects. *)
Record Response : Type := mkResponse {
  responseText : option string
}.

Inductive StorageAccess : Type :=
| GetItem (key : string)
| SetItem (key value : string)
| RemoveItem (key : string).


Record Page : Type := mkPage {
  (** [document.doctype], [None] for [null] *)
  doctype : option string;
  (** [document.documentElement], [None] for [null] *)
  documentElement : option Node;
  (** [document.styleSheets] *)
  styleSheets : list StyleSheet;
  (** [window.sessionStorage] and the calls made on it, oldest first *)
  sessionStorage : gmap string string;
  storageLog : list StorageAccess;
  (** the URLs passed to [fetch], oldest first *)
  requests : list string;
  (** whether [window.MutationObserver] is defined *)
  mutationObserver : bool;
  (** the number of observers watching the document root *)
  observers : nat;
  (** the value of a global [observeDOM], [Undefined] when the page
      declares none *)
  globalObserveDOM : Js.value;
  (** whether an assignment to the undeclared names [rootNode] and
      [styleSheets] is accepted (a sloppy-mode script); in strict code,
      which a module is, it raises a ReferenceError *)
  sloppyMode : bool
}.

Definition withDoctype (d : option string) (w : Page) : Page :=
  mkPage d (documentElement w) (styleSheets w) (sessionStorage w) (storageLog w)
         (requests w) (mutationObserver w) (observers w) (globalObserveDOM w)
         (sloppyMode w).

Definition withDocumentElement (r : option Node) (w : Page) : Page :=
  mkPage (doctype w) r (styleSheets w) (sessionStorage w) (storageLog w)
         (requests w) (mutationObserver w) (observers w) (globalObserveDOM w)
         (sloppyMode w).

Definition withStorage (m : gmap string string) (a : StorageAccess) (w : Page) : Page :=
  mkPage (doctype w) (documentElement w) (styleSheets w) m
         (storageLog w ++ [a])%list
         (requests w) (mutationObserver w) (observers w) (globalObserveDOM w)
         (sloppyMode w).

Definition withRequest (url : string) (w : Page) : Page :=
  mkPage (doctype w) (documentElement w) (styleSheets w) (sessionStorage w)
         (storageLog w) (requests w ++ [url])%list (mutationObserver w)
         (observers w) (globalObserveDOM w) (sloppyMode w).

Definition withObserver (w : Page) : Page :=
  mkPage (doctype w) (documentElement w) (styleSheets w) (sessionStorage w)
         (storageLog w) (requests w) (mutationObserver w)
         (S (observers w)) (globalObserveDOM w) (sloppyMode w).

(** *** Computations: page state and exceptions *)

Inductive Completion (A : Type) : Type :=
| Normal (a : A)
| Throw (e : Error).

Arguments Normal {A} a.
Arguments Throw {A} e.

Definition M (A : Type) : Type := Page -> Completion A * Page.

Definition ret {A : Type} (a : A) : M A := fun w => (Normal a, w).

Definition throw {A : Type} (e : Error) : M A := fun w => (Throw e, w).

Definition bind {A B : Type} (m : M A) (k : A -> M B) : M B :=
  fun w =>
    match m w with
    | (Normal a, w') => k a w'
    | (Throw e, w') => (Throw e, w')
    end.

(** [try { m } catch (e) { handler(e) }]: what [m] did to the page
    before it threw stays done. *)
Definition tryCatch {A : Type} (m : M A) (handler : Error -> M A) : M A :=
  fun w =>
    match m w with
    | (Normal a, w') => (Normal a, w')
    | (Throw e, w') => handler e w'
    end.

Declare Scope js_scope.
Delimit Scope js_scope with js.
Notation "x <- m ;; k" := (bind m (fun x => k))
  (at level 100, m at next level, right associativity) : js_scope.
Notation "m ;;; k" := (bind m (fun _ => k))
  (at level 100, right associativity) : js_scope.

(** *** [window.sessionStorage] *)

(** The three calls on a storage that answers them; the storage that
    refuses a call is [getItemUnder] and [setItemUnder] below. *)

Definition getItem (key : string) : M (option string) :=
  fun w => (Normal (sessionStorage w !! key),
            withStorage (sessionStorage w) (GetItem key) w).

Definition setItem (key value : string) : M unit :=
  fun w => (Normal tt,
            withStorage (<[key := value]> (sessionStorage w)) (SetItem key value) w).

Definition removeItem (key : string) : M unit :=
  fun w => (Normal tt,
            withStorage (delete key (sessionStorage w)) (RemoveItem key) w).

(** *** A storage that may refuse *)

(** How [window.sessionStorage] treats the page: it answers; or every
    access to it throws a SecurityError (storage denied to the page); or
    it answers but refuses, with a QuotaExceededError, a write that
    takes what it holds above [limit] characters. *)
Inductive StoragePolicy : Type :=
| StorageAnswers
| StorageDenied
| StorageQuota (limit : nat).

Definition securityError : Error :=
  mkError "SecurityError" "The operation is insecure.".

Definition quotaExceeded : Error :=
  mkError "QuotaExceededError" "The quota has been exceeded.".

(** The characters a storage holds, keys and values. *)
Definition storedSize (m : gmap string string) : nat :=
  map_fold (fun k v n => (String.length k + String.length v + n)%nat) 0%nat m.

Definition getItemUnder (policy : StoragePolicy) (key : string) : M (option string) :=
  match policy with
  | StorageDenied => throw securityError
  | _ => getItem key
  end.

Definition setItemUnder (policy : StoragePolicy) (key value : string) : M unit :=
  match policy with
  | StorageDenied => throw securityError
  | StorageQuota limit =>
      fun w =>
        if (limit <? storedSize (<[key := value]> (sessionStorage w)))%nat
        then (Throw quotaExceeded, w)
        else setItem key value w
  | StorageAnswers => setItem key value
  end.

(** *** Services of the platform the source calls into *)

Record Platform : Type := mkPlatform {
  (** [fetch(url)]: [None] when the promise rejects *)
  fetch : string -> option Response;
  (** the rule list the CSS parser gives a style element of this text *)
  parseRules : string -> list CSSRule;
  (** [document.querySelectorAll(selector).length] on the live tree;
      [None] when the call throws a SyntaxError, as it does on text that
      is not a selector it accepts (the empty string, [:first] of an
      [@page] rule) *)
  querySelectorAll : option Node -> string -> option nat
}.

End Browser.

(** ** The snapshot engine of [src/index.js] *)

Module Snapshot.
Import Dom Browser.
Local Open Scope js_scope.

(** *** The cloned tree *)

(** The style attribute of a clone: none; the text copied from the live
    element; or, once a declaration has been written through
    [clone.style], the serialization of the declarations of [cstyle]. *)
Inductive StyleAttribute : Type :=
| NoStyleAttribute
| AuthoredStyle (text : string)
| SerializedStyle.

Record ClonedElement : Type := mkCloned {
  ctagName : string;
  (** the attributes other than [style] *)
  cattributes : gmap string string;
  (** the [style] attribute *)
  cstyleAttribute : StyleAttribute;
  (** the declarations of [clone.style]; [None] when the clone has no
      declaration block ([clone.style] is [undefined], or the plain
      object the source then puts there) *)
  cstyle : option (gmap string string);
  (** the script properties set on [clone.style] that are no
      declarations *)
  cstyleProperties : gmap string string;
  (** the script property [class] set by [img.class = ...] *)
  cclassProperty : option string
}.

Inductive Cloned : Type :=
| CElem (e : ClonedElement) (children : list Cloned)
| CText (data : string)
| CComment (data : string)
(** the nodes the parser makes of markup assigned to [innerHTML] *)
| CMarkup (html : string).

Definition noStyleTags : gset string :=
  list_to_set ["BASE"; "HEAD"; "HTML"; "META"; "NOFRAME"; "NOSCRIPT"; "PARAM";
               "SCRIPT"; "STYLE"; "TITLE"; "LINK"].

Definition ignoreTags : gset string :=
  list_to_set ["SCRIPT"; "NOSCRIPT"; "STYLE"; "LINK"].

(** *** Computed-style accessors *)

Definition getComputedStyle (e : Element) : CSSStyleDeclaration := computed e.

(** [window.getComputedStyle(node, null) !== undefined]: the call
    returns a declaration object for every element. *)
Definition hasStyle (e : Element) : bool := true.

Definition getPropertyName (e : Element) (index : nat) : string :=
  declItem (getComputedStyle e) index.

Definition getPropertyValue (e : Element) (name : string) : string :=
  declValue (getComputedStyle e) name.

Definition numberProperties (e : Element) : nat :=
  declLength (getComputedStyle e).

(** [defaultStyle] is what [Map.get] returned: [None] for [undefined]. *)
Definition isDefaultStyle (cssPropName propertyValue : string)
    (defaultStyle : option CSSStyleDeclaration) : bool :=
  match defaultStyle with
  | None => false
  | Some d => String.eqb propertyValue (declValue d cssPropName)
  end.

Definition isInlineStyle (e : Element) (cssPropName : string) : bool :=
  let inlineStyle := getAttribute e "style" in
  if negb (Js.truthyOpt inlineStyle) then false
  else negb (Js.indexOf (Js.toStringOpt inlineStyle) cssPropName =? -1).

(** *** The default-style cache *)

(** The object handed to [JSON.stringify]: [tag], [id] ([None] for
    [null]) and [classes], an array of arrays of class names. *)
Definition StyleKey : Type := string * option string * list (list string).

Definition styleKey (e : Element) : StyleKey :=
  (tagName e,
   getAttribute e "id",
   if Js.truthyOpt (getAttribute e "class")
   then Js.sort (Js.join ",") [Js.split " " (Js.toStringOpt (getAttribute e "class"))]
   else []).

Definition getDefaultStyle (e : Element)
    (defaultStylesCache : gmap StyleKey CSSStyleDeclaration)
  : option CSSStyleDeclaration * gmap StyleKey CSSStyleDeclaration :=
  let key := styleKey e in
  let cache' :=
    match defaultStylesCache !! key with
    | Some _ => defaultStylesCache
    | None => <[key := getComputedStyle e]> defaultStylesCache
    end in
  (cache' !! key, cache').

(** *** Node predicates *)

Definition hasTagName (node : Node) (tag : string) : bool :=
  match nodeTagName node with
  | None => false
  | Some t => String.eqb (Js.toLowerCase t) (Js.toLowerCase tag)
  end.

Definition isBlankCharacter (charCode : Z) : bool :=
  (9 =? charCode) || (32 =? charCode) || (0xB =? charCode) ||
  (0xC =? charCode) || (10 =? charCode) || (13 =? charCode).

(** The [while] loop of [isEmptyTextNode] over the characters that are
    left to scan. *)
Fixpoint onlyBlankCharacters (s : string) : bool :=
  match s with
  | EmptyString => true
  | String c rest =>
      if negb (isBlankCharacter (Js.charCode c)) then false
      else onlyBlankCharacters rest
  end.

Definition siblingIs (o : option Node) (tag : string) : bool :=
  match o with
  | None => false
  | Some s => hasTagName s tag
  end.

Definition isEmptyTextNode (sib : Siblings) (node : Node) : bool :=
  if negb (nodeType node =? TEXT_NODE) then false
  else if siblingIs (previousElementSibling sib) "span"
          || siblingIs (nextElementSibling sib) "span" then false
  else match nodeValue node with
       | Some value => onlyBlankCharacters value
       | None => true (* not reached: a text node has a value *)
       end.

Definition isIgnored (sib : Siblings) (node : Node) : bool :=
  if isEmptyTextNode sib node then true
  else match nodeTagName node with
       | None => false
       | Some t => bool_decide (Js.toUpperCase t ∈ ignoreTags)
       end.

Definition isComputeStyle (node : Node) : bool :=
  match nodeTagName node with
  | None => false
  | Some t => isElement node && negb (bool_decide (Js.toUpperCase t ∈ noStyleTags))
  end.

(** *** Images *)

(** [document.createElement(tag)]: no attribute, an empty inline style. *)
Definition createElement (tag : string) : ClonedElement :=
  mkCloned tag ∅ NoStyleAttribute (Some ∅) ∅ None.

(** Setting an attribute other than [style]. *)
Definition setAttribute (name value : string) (c : ClonedElement) : ClonedElement :=
  mkCloned (ctagName c) (<[name := value]> (cattributes c)) (cstyleAttribute c)
           (cstyle c) (cstyleProperties c) (cclassProperty c).

(** Assigning a number to a property that reflects an attribute as an
    unsigned long ([img.width], [img.height]): the number is reduced
    modulo 2^32, and a result above 2147483647 is written as 0. *)
Definition reflectUnsignedLong (n : N) : string :=
  let m := (n mod 4294967296)%N in
  if (m <=? 2147483647)%N then pretty m else "0".

(** The reflecting properties [element.alt] and [element.id]. *)
Definition alt (e : Element) : string := default "" (getAttribute e "alt").
Definition id (e : Element) : string := default "" (getAttribute e "id").

Definition computeImageElement (element : Element) : ClonedElement :=
  let img := createElement "IMG" in
  let img := if Js.truthy (alt element) then setAttribute "alt" (alt element) img else img in
  let img := if Js.truthy (id element) then setAttribute "id" (id element) img else img in
  let img := setAttribute "width" (reflectUnsignedLong (width element)) img in
  let img := setAttribute "height" (reflectUnsignedLong (height element)) img in
  mkCloned (ctagName img) (cattributes img) (cstyleAttribute img) (cstyle img)
           (cstyleProperties img) (classProperty element).

(** *** Style deltas *)

(** A custom property: its name starts with two dashes.  The
    declaration object has an attribute for every other property the
    computed style lists, none for a custom one. *)
Definition isCustomProperty (name : string) : bool := String.prefix "--" name.

(** A script property on [clone.style] that is no declaration. *)
Definition setStyleScriptProperty (clone : ClonedElement) (name value : string)
  : ClonedElement :=
  mkCloned (ctagName clone) (cattributes clone) (cstyleAttribute clone) (cstyle clone)
           (<[name := value]> (cstyleProperties clone)) (cclassProperty clone).

(** [if (clone.style === undefined) clone.style = {};
     clone.style[name] = value].  On a declaration block the assignment
    to a property other than a custom one sets the declaration, and the
    style attribute becomes the serialization of the block; on a custom
    name, and on the plain object that stands in for a missing block, it
    only leaves a script property. *)
Definition setStyleProperty (clone : ClonedElement) (name value : string) : ClonedElement :=
  match cstyle clone with
  | None => setStyleScriptProperty clone name value
  | Some declarations =>
      if isCustomProperty name then setStyleScriptProperty clone name value
      else mkCloned (ctagName clone) (cattributes clone) SerializedStyle
                    (Some (<[name := value]> declarations))
                    (cstyleProperties clone) (cclassProperty clone)
  end.

(** The decision of the loop body, once the value is known non-empty. *)
Definition isRetained (e : Element) (defaultStyle : option CSSStyleDeclaration)
    (cssPropName cssPropValue : string) : bool :=
  negb (isDefaultStyle cssPropName cssPropValue defaultStyle)
  || isInlineStyle e cssPropName.

(** One iteration of the loop of [updateStyle]. *)
Definition updateStyleStep (e : Element) (defaultStyle : option CSSStyleDeclaration)
    (clone : ClonedElement) (i : nat) : ClonedElement :=
  let cssPropName := getPropertyName e i in
  let cssPropValue := getPropertyValue e cssPropName in
  if negb (Js.truthy cssPropValue) then clone
  else if isRetained e defaultStyle cssPropName cssPropValue
       then setStyleProperty clone cssPropName cssPropValue
       else clone.

Definition updateStyle (clone : ClonedElement) (e : Element)
    (cache : gmap StyleKey CSSStyleDeclaration)
  : ClonedElement * gmap StyleKey CSSStyleDeclaration :=
  let '(defaultStyle, cache) := getDefaultStyle e cache in
  let cssLength := numberProperties e in
  if negb (hasStyle e) then (clone, cache)
  else (fold_left (updateStyleStep e defaultStyle) (seq 0 cssLength) clone, cache).

(** *** The recursive clone *)

(** [node.cloneNode(false)] on an element: tag and attributes, and with
    the style attribute its declarations; no children. *)
Definition cloneElement (e : Element) : ClonedElement :=
  mkCloned (tagName e) (delete "style" (attributes e))
           (match getAttribute e "style" with
            | Some text => AuthoredStyle text
            | None => NoStyleAttribute
            end)
           (style e) ∅ None.

Fixpoint deepCloneWithStyles (sib : Siblings) (node : Node)
    (cache : gmap StyleKey CSSStyleDeclaration) {struct node}
  : option Cloned * gmap StyleKey CSSStyleDeclaration :=
  if isIgnored sib node then (None, cache)
  else
    match node with
    | Elem e childNodes =>
        if hasTagName node "img" then (Some (CElem (computeImageElement e) []), cache)
        else
          let clone := cloneElement e in
          let '(clone, cache) :=
            if isComputeStyle node then updateStyle clone e cache else (clone, cache) in
          let fix appendChildren (prev : option Node) (rest : list Node)
                  (kids : list Cloned) (cache : gmap StyleKey CSSStyleDeclaration)
                  {struct rest} :=
            match rest with
            | [] => (kids, cache)
            | child :: rest' =>
                let '(cloneChild, cache) :=
                  deepCloneWithStyles (mkSiblings prev (firstElement rest')) child cache in
                appendChildren (if isElement child then Some child else prev) rest'
                  (match cloneChild with
                   | Some c => (kids ++ [c])%list
                   | None => kids
                   end) cache
            end in
          let '(kids, cache) := appendChildren None childNodes [] cache in
          (Some (CElem clone kids), cache)
    | Text data => (Some (CText data), cache)
    | Comment data => (Some (CComment data), cache)
    end.

(** *** Assembled documents *)

(** A document made by [createDocument]: its doctype and its root. *)
Record Document : Type := mkDocument {
  docDoctype : option string;
  docRoot : option Cloned
}.

Definition isTag (c : Cloned) (tag : string) : bool :=
  match c with
  | CElem e _ => String.eqb (Js.toLowerCase (ctagName e)) tag
  | _ => false
  end.

(** Appends [child] to the first [head] among [kids]; [None] when there
    is no such element. *)
Fixpoint appendToFirstHead (kids : list Cloned) (child : Cloned) : option (list Cloned) :=
  match kids with
  | [] => None
  | k :: rest =>
      match k with
      | CElem e ks =>
          if isTag k "head" then Some (CElem e (ks ++ [child]) :: rest)%list
          else option_map (cons k) (appendToFirstHead rest child)
      | _ => option_map (cons k) (appendToFirstHead rest child)
      end
  end.

Definition headIsNull : Error :=
  mkError "TypeError" "Cannot read properties of null (reading 'appendChild')".

(** [doc.head.appendChild(child)]: [doc.head] is the first [head] child
    of an [html] root, and [null] otherwise. *)
Definition headAppendChild (doc : Document) (child : Cloned) : Completion Document :=
  match docRoot doc with
  | Some (CElem e kids) =>
      if isTag (CElem e kids) "html" then
        match appendToFirstHead kids child with
        | Some kids' => Normal (mkDocument (docDoctype doc) (Some (CElem e kids')))
        | None => Throw headIsNull
        end
      else Throw headIsNull
  | _ => Throw headIsNull
  end.

(** [element.textContent = s]: one text node, none for the empty string. *)
Definition textContent (s : string) : list Cloned :=
  if Js.truthy s then [CText s] else [].

(** *** Style sheet collection *)

Section Engine.
Context (platform : Platform) (serializeToString : Document -> string).

Definition proxyUrl : string := "https://cors-anywhere.herokuapp.com/".

Definition fetchFailed : Error := mkError "TypeError" "Failed to fetch".

(** [await fetch(url)]. *)
Definition awaitFetch (url : string) : M Response :=
  fun w =>
    (match fetch platform url with
     | Some response => Normal response
     | None => Throw fetchFailed
     end, withRequest url w).

(** [await response.text()]. *)
Definition awaitText (response : Response) : M string :=
  match responseText response with
  | Some body => ret body
  | None => throw fetchFailed
  end.

Definition loadCssWithCorsAnywhere (href : option string) : M string :=
  response <- awaitFetch (proxyUrl ++ Js.toStringOpt href) ;;
  awaitText response.

(** What the variable [css] of [loadCss] holds: the promise returned by
    [response.text()], which is not awaited, or the text the proxy path
    awaited. *)
Inductive CssValue : Type :=
| CssPromise (response : Response)
| CssString (s : string).

(** [styleElement.textContent = css] converts [css] to a string. *)
Definition textContentOf (css : CssValue) : string :=
  match css with
  | CssPromise _ => "[object Promise]"
  | CssString s => s
  end.

Definition loadCss (href : option string) : M (list CSSRule) :=
  css <- tryCatch
           (response <- awaitFetch (Js.toStringOpt href) ;;
            ret (CssPromise response))
           (fun _ => s <- loadCssWithCorsAnywhere href ;; ret (CssString s)) ;;
  ret (parseRules platform (textContentOf css)).

(** The loop of [initializeStyleSheets] over the sheets still to visit;
    [sheets] is the array being filled. *)
Fixpoint collectSheets (remaining : list StyleSheet) (sheets : list (list CSSRule))
  : M (list (list CSSRule)) :=
  match remaining with
  | [] => ret sheets
  | styleSheet :: rest =>
      rules <- match cssRules styleSheet with
               | Some rules => ret rules
               | None => loadCss (href styleSheet)
               end ;;
      collectSheets rest (sheets ++ [rules])%list
  end.

Definition initializeStyleSheets : M (list (list CSSRule)) :=
  fun w => collectSheets (styleSheets w) [] w.

(** *** Pruning *)

(** The argument of [querySelectorAll]: [undefined] converts to the
    string "undefined". *)
Definition selectorArgument (r : CSSRule) : string :=
  match selectorText r with
  | Some s => s
  | None => "undefined"
  end.

Definition notASelector (text : string) : Error :=
  mkError "SyntaxError" ("'" ++ text ++ "' is not a valid selector").

(** [document.querySelectorAll(rules[r].selectorText).length > 0]. *)
Definition selectorMatches (root : option Node) (r : CSSRule) : Completion bool :=
  match querySelectorAll platform root (selectorArgument r) with
  | Some n => Normal (0 <? n)%nat
  | None => Throw (notASelector (selectorArgument r))
  end.

(** The inner loop of [getUsedStyles]; the selector is queried only when
    [isOptimizeCss] holds. *)
Fixpoint cleanRulesLoop (root : option Node) (isOptimizeCss : bool)
    (rules : list CSSRule) (cleanRules : list string) : Completion (list string) :=
  match rules with
  | [] => Normal cleanRules
  | r :: rest =>
      if negb isOptimizeCss
      then cleanRulesLoop root isOptimizeCss rest (cleanRules ++ [cssText r])%list
      else
        match selectorMatches root r with
        | Throw e => Throw e
        | Normal true =>
            cleanRulesLoop root isOptimizeCss rest (cleanRules ++ [cssText r])%list
        | Normal false => cleanRulesLoop root isOptimizeCss rest cleanRules
        end
  end.

(** The outer loop of [getUsedStyles]. *)
Fixpoint usedLoop (root : option Node) (isOptimizeCss : bool)
    (styleSheets : list (list CSSRule)) (used : list (list string))
  : Completion (list (list string)) :=
  match styleSheets with
  | [] => Normal used
  | rules :: rest =>
      match cleanRulesLoop root isOptimizeCss rules [] with
      | Throw e => Throw e
      | Normal cleanRules => usedLoop root isOptimizeCss rest (used ++ [cleanRules])%list
      end
  end.

Definition getUsedStyles (root : option Node) (isOptimizeCss : bool)
    (styleSheets : list (list CSSRule)) : Completion (list (list string)) :=
  usedLoop root isOptimizeCss styleSheets [].

(** *** Assembly *)

Definition createDomElements : M (option Cloned * list (list CSSRule)) :=
  fun w =>
    let '(styleSheets, w') := initializeStyleSheets w in
    match documentElement w with
    | None =>
        (Throw (mkError "TypeError"
                  "Cannot read properties of null (reading 'nodeType')"), w')
    | Some root =>
        let '(clone, _) := deepCloneWithStyles noSiblings root ∅ in
        match styleSheets with
        | Normal sheets => (Normal (clone, sheets), w')
        | Throw e => (Throw e, w')
        end
    end.

(** [document.implementation.createDocument("", "", document.doctype)]:
    the doctype node is appended to the new document, and a node that is
    appended leaves the parent it had. *)
Definition createDocument : M Document :=
  fun w => (Normal (mkDocument (doctype w) None), withDoctype None w).

(** [doc.appendChild(node)]. *)
Definition appendRoot (doc : Document) (node : option Cloned) : M Document :=
  match node with
  | Some root => ret (mkDocument (docDoctype doc) (Some root))
  | None =>
      throw (mkError "TypeError"
               "Failed to execute 'appendChild' on 'Node': parameter 1 is not of type 'Node'.")
  end.

(** [document.head] of the live document: an element or [null]. *)
Definition liveHead (root : option Node) : Js.value :=
  match root with
  | Some (Elem e kids) =>
      if String.eqb (Js.toLowerCase (tagName e)) "html"
      then match List.find (fun k => hasTagName k "head") kids with
           | Some _ => Js.Obj 0
           | None => Js.Null
           end
      else Js.Null
  | _ => Js.Null
  end.

(** Appends [child] to the first element named [tag], in tree order. *)
Fixpoint appendToFirst (tag : string) (child : Node) (n : Node) : option Node :=
  match n with
  | Elem e kids =>
      if String.eqb (Js.toLowerCase (tagName e)) tag
      then Some (Elem e (kids ++ [child])%list)
      else
        let fix inChildren (l : list Node) : option (list Node) :=
          match l with
          | [] => None
          | k :: rest =>
              match appendToFirst tag child k with
              | Some k' => Some (k' :: rest)
              | None => option_map (cons k) (inChildren rest)
              end
          end in
        option_map (Elem e) (inChildren kids)
  | _ => None
  end.

(** The body of the [document.head === undefined] branch:
    [document.getElementsByTagName('html')[0].appendChild(
       document.createElement('head'))]. *)
Definition appendHeadToLiveDocument : M unit :=
  fun w =>
    let head := Elem (mkElement "HEAD" ∅ [] (Some ∅) 0 0 None) [] in
    match documentElement w with
    | Some root =>
        match appendToFirst "html" head root with
        | Some root' => (Normal tt, withDocumentElement (Some root') w)
        | None =>
            (Throw (mkError "TypeError"
                      "Cannot read properties of undefined (reading 'appendChild')"), w)
        end
    | None =>
        (Throw (mkError "TypeError"
                  "Cannot read properties of undefined (reading 'appendChild')"), w)
    end.

(** The loop of [finalize] over the pruned sheets. *)
Fixpoint appendStyles (used : list (list string)) (doc : Document) : M Document :=
  match used with
  | [] => ret doc
  | rules :: rest =>
      if (List.length rules =? 0)%nat then appendStyles rest doc
      else
        let usedStyle := CElem (createElement "STYLE") (textContent (Js.join " " rules)) in
        match headAppendChild doc usedStyle with
        | Normal doc' => appendStyles rest doc'
        | Throw e => throw e
        end
  end.

Definition finalize (isOptimizeCss : bool) (node : option Cloned)
    (styleSheets : list (list CSSRule)) : M Document :=
  doc <- createDocument ;;
  doc <- appendRoot doc node ;;
  (fun w =>
     if Js.strictEquals (liveHead (documentElement w)) Js.Undefined
     then appendHeadToLiveDocument w
     else ret tt w) ;;;
  (fun w =>
     match getUsedStyles (documentElement w) isOptimizeCss styleSheets with
     | Normal used => appendStyles used doc w
     | Throw e => throw e w
     end).

Definition createErrorDocument (error : Error) : M Document :=
  doc <- createDocument ;;
  let bodyNode := CElem (createElement "BODY") [CMarkup (errorToString error)] in
  let htmlNode := CElem (createElement "HTML") [bodyNode] in
  ret (mkDocument (docDoctype doc) (Some htmlNode)).

(** *** The snapshot request *)

(** [[rootNode, styleSheets] = ...]: neither name is declared. *)
Definition assignUndeclared : M unit :=
  fun w =>
    if sloppyMode w then (Normal tt, w)
    else (Throw (mkError "ReferenceError" "rootNode is not defined"), w).

(** The [try] block. *)
Definition build (optimizeImport : bool) : M Document :=
  elements <- createDomElements ;;
  assignUndeclared ;;;
  finalize optimizeImport (fst elements) (snd elements).

Definition isTrue (o : option string) : bool :=
  match o with
  | Some s => String.eqb s "true"
  | None => false
  end.

(** [ns.serializeToString(doc)], a call that may throw. *)
Definition serializeWith (serialize : Document -> Completion string) (doc : Document)
  : M string :=
  fun w => (serialize doc, w).

(** What follows the cache lookup, under a storage policy. *)
Definition rebuildUnder (policy : StoragePolicy)
    (serialize : Document -> Completion string) (optimizeImport : bool) : M string :=
  doc <- tryCatch (build optimizeImport) createErrorDocument ;;
  dom <- serializeWith serialize doc ;;
  allow <- getItemUnder policy "allow_snapshot" ;;
  (if isTrue allow then setItemUnder policy "dom_snapshot" dom else ret tt) ;;;
  ret dom.

(** The function that [domWithStyles] runs, under a storage policy. *)
Definition domWithStylesUnder (policy : StoragePolicy)
    (serialize : Document -> Completion string) (optimizeImport : bool) : M string :=
  allow <- getItemUnder policy "allow_snapshot" ;;
  if isTrue allow then
    stored <- getItemUnder policy "dom_snapshot" ;;
    if Js.truthyOpt stored then ret (Js.toStringOpt stored)
    else rebuildUnder policy serialize optimizeImport
  else rebuildUnder policy serialize optimizeImport.

(** The same two on a page whose storage answers and with a serializer
    that returns. *)
Definition rebuild (optimizeImport : bool) : M string :=
  rebuildUnder StorageAnswers (fun doc => Normal (serializeToString doc)) optimizeImport.

Definition domWithStyles (optimizeImport : bool) : M string :=
  domWithStylesUnder StorageAnswers (fun doc => Normal (serializeToString doc))
    optimizeImport.

End Engine.

End Snapshot.

(** ** The mutation observer of [src/domObserver.js] *)

Module DomObserver.
Import Browser.
Local Open Scope js_scope.

(** The callback handed to [new window.MutationObserver(...)]. *)
Definition mutationCallback : M unit := removeItem "dom_snapshot".

(** The function the immediately-invoked function returns. *)
Definition installObserver : M unit :=
  fun w =>
    if mutationObserver w then
      setItem "allow_snapshot" "true" (withObserver w)
    else
      setItem "allow_snapshot" "false" w.

(** The immediately-invoked function: it clears the stored snapshot and
    returns [installObserver] without calling it. *)
Definition observeDOMInitialiser : M (M unit) :=
  removeItem "dom_snapshot" ;;; ret installObserver.

(** The condition reads the [observeDOM] of the enclosing scope: the
    [const] of the same name lives in the block below it. *)
Definition trackMutation : M unit :=
  fun w =>
    if Js.strictEquals (Js.typeof (globalObserveDOM w)) Js.Undefined
    then (observeDOM <- observeDOMInitialiser ;; ret tt) w
    else ret tt w.

(** A child-list or subtree mutation under the document root: every
    observer that watches it runs its callback. *)
Definition mutationOccurs : M unit :=
  fun w => if (0 <? observers w)%nat then mutationCallback w else ret tt w.

End DomObserver.

(** ** Notions the properties are stated with *)

Module Spec.
Import Dom Browser Snapshot.

(** A needle occurs in a haystack when the haystack splits around it. *)
Definition occursIn (needle hay : string) : Prop :=
  exists pre post, hay = pre ++ needle ++ post.

(** The character codes the source counts as blank: tab, line feed,
    vertical tab, form feed, carriage return and space. *)
Definition blankCodes : list Z := [9; 10; 11; 12; 13; 32].

(** The whole content of a text node is blank. *)
Definition blankOnly (s : string) : Prop :=
  forall c, In c (list_ascii_of_string s) -> In (Js.charCode c) blankCodes.



(** The four names an image clone may carry as attributes. *)
Definition imageAttributes : gset string :=
  {[ "alt"; "id"; "width"; "height" ]}.

(** Reading a reflecting string property of a clone: the attribute, or
    the empty string. *)
Definition reflected (c : ClonedElement) (name : string) : string :=
  default "" (cattributes c !! name).

(** The property is enumerated: it is the name found at an index below
    the live property count. *)
Definition enumerated (e : Element) (name : string) : Prop :=
  exists i, (i < numberProperties e)%nat /\ getPropertyName e i = name.

(** The value differs from the one the baseline has for the property;
    without a baseline every value differs. *)
Definition differsFromBaseline (baseline : option CSSStyleDeclaration)
    (name value : string) : Prop :=
  match baseline with
  | None => True
  | Some d => value <> declValue d name
  end.

(** The name occurs in the text of the inline style attribute. *)
Definition namedInline (e : Element) (name : string) : Prop :=
  exists text, getAttribute e "style" = Some text /\ occursIn name text.

(** The condition under which a property goes to the clone. *)
Definition retained (e : Element) (baseline : option CSSStyleDeclaration)
    (name : string) : Prop :=
  enumerated e name /\
  getPropertyValue e name <> "" /\
  (differsFromBaseline baseline name (getPropertyValue e name) \/ namedInline e name).

(** The two tests of the loop body of [updateStyle] taken together. *)
Definition keeps (e : Element) (baseline : option CSSStyleDeclaration)
    (name : string) : bool :=
  Js.truthy (getPropertyValue e name)
  && isRetained e baseline name (getPropertyValue e name).

(** The inline style map of a clone. *)
Definition styleOf (c : ClonedElement) : gmap string string :=
  default ∅ (cstyle c).

(** The style attribute as the author wrote it on the live element. *)
Definition authoredStyle (e : Element) : StyleAttribute :=
  match getAttribute e "style" with
  | Some text => AuthoredStyle text
  | None => NoStyleAttribute
  end.

(** The clone has a declaration block. *)
Definition hasDeclarations (c : ClonedElement) : bool :=
  match cstyle c with
  | Some _ => true
  | None => false
  end.

(** An assignment to [clone.style[name]] sets a declaration: the clone
    has a declaration block and the property is not a custom one. *)
Definition declares (c : ClonedElement) (name : string) : bool :=
  hasDeclarations c && negb (isCustomProperty name).

(** The claim on style deltas: a property is on the inline style map of
    the clone after [updateStyle] when it is retained, and the map is as
    it was at that name when it is not. *)
Definition placedIffRetained (clone : ClonedElement) (e : Element)
    (cache : gmap StyleKey CSSStyleDeclaration) (name : string) : Prop :=
  let baseline := fst (getDefaultStyle e cache) in
  let clone' := fst (updateStyle clone e cache) in
  (retained e baseline name ->
   styleOf clone' !! name = Some (getPropertyValue e name)) /\
  (~ retained e baseline name ->
   styleOf clone' !! name = styleOf clone !! name).

(** *** Recovery of a sheet's rules *)

Section Recovery.
Context (platform : Platform).

(** The rules a sheet ends up with: read directly; else parsed from what
    [loadCss] made of a fetch of the sheet's address; else parsed from
    the text fetched through the proxy; [None] when all three fail. *)
Definition recoverSheet (sheet : StyleSheet) : option (list CSSRule) :=
  match cssRules sheet with
  | Some rules => Some rules
  | None =>
      let url := Js.toStringOpt (href sheet) in
      match fetch platform url with
      | Some response =>
          Some (parseRules platform (textContentOf (CssPromise response)))
      | None =>
          match fetch platform (proxyUrl ++ url) with
          | Some response =>
              match responseText response with
              | Some body => Some (parseRules platform body)
              | None => None
              end
          | None => None
          end
      end
  end.

(** The requests a sheet costs, in the order they are sent. *)
Definition requestsFor (sheet : StyleSheet) : list string :=
  match cssRules sheet with
  | Some _ => []
  | None =>
      let url := Js.toStringOpt (href sheet) in
      match fetch platform url with
      | Some _ => [url]
      | None => [url; proxyUrl ++ url]
      end
  end.

(** The claim that collection never fails: it answers with one rule list
    per sheet whatever the sheets are, an empty one where no path
    recovers the sheet. *)
Definition collectionNeverFails (w : Page) : Prop :=
  exists sheets,
    fst (initializeStyleSheets platform w) = Normal sheets /\
    List.length sheets = List.length (styleSheets w) /\
    (forall i sheet,
       styleSheets w !! i = Some sheet ->
       recoverSheet sheet = None ->
       sheets !! i = Some []).

End Recovery.

(** *** The snapshot request *)

(** What a build may change on a page is its doctype and its list of
    requests; [untouched w w'] says that the rest of [w'] is as in [w]. *)
Definition untouched (w w' : Page) : Prop :=
  documentElement w' = documentElement w /\
  styleSheets w' = styleSheets w /\
  sessionStorage w' = sessionStorage w /\
  storageLog w' = storageLog w /\
  sloppyMode w' = sloppyMode w.

Definition leaves {A : Type} (m : M A) : Prop :=
  forall w, untouched w (snd (m w)).

(** The document of [createErrorDocument]: an html element around a body
    that holds the markup of the message. *)
Definition errorDocument (d : option string) (error : Error) : Document :=
  mkDocument d
    (Some (CElem (createElement "HTML")
             [CElem (createElement "BODY") [CMarkup (errorToString error)]])).

(** The document a request serializes, and the page the build leaves:
    the document of the [try] block, or the error document made from
    what the block threw. *)
Definition builtDocument (platform : Platform) (optimizeImport : bool) (w : Page)
  : Document * Page :=
  match build platform optimizeImport w with
  | (Normal doc, w') => (doc, w')
  | (Throw e, w') => (errorDocument (doctype w') e, withDoctype None w')
  end.

(** A storage call that changes no entry. *)
Definition logged (a : StorageAccess) (w : Page) : Page :=
  withStorage (sessionStorage w) a w.



(** A computation that neither reads nor writes the storage: run on a
    page with other storage content it gives the same result and leaves
    that content in place. *)
Definition ignoresStorage {A : Type} (m : M A) : Prop :=
  forall st a w,
    m (withStorage st a w) = (fst (m w), withStorage st a (snd (m w))).

(** *** The cloned tree as a whole *)

(** The loop of [deepCloneWithStyles] over the children still to visit:
    [prev] is the last element passed, [kids] the clones appended so far. *)
Fixpoint appendChildrenOf (prev : option Node) (rest : list Node)
    (kids : list Cloned) (cache : gmap StyleKey CSSStyleDeclaration)
  : list Cloned * gmap StyleKey CSSStyleDeclaration :=
  match rest with
  | [] => (kids, cache)
  | child :: rest' =>
      let '(cloneChild, cache) :=
        deepCloneWithStyles (mkSiblings prev (firstElement rest')) child cache in
      appendChildrenOf (if isElement child then Some child else prev) rest'
        (match cloneChild with
         | Some c => (kids ++ [c])%list
         | None => kids
         end) cache
  end.

(** No element of a cloned tree has a tag of the ignore list. *)
Fixpoint noIgnoredTag (c : Cloned) : bool :=
  match c with
  | CElem e kids =>
      negb (bool_decide (Js.toUpperCase (ctagName e) ∈ ignoreTags))
      && forallb noIgnoredTag kids
  | _ => true
  end.

(** The class attribute as the style key sees it: an absent and an empty
    attribute are the same. *)
Definition effectiveClass (e : Element) : option string :=
  match getAttribute e "class" with
  | Some text => if Js.truthy text then Some text else None
  | None => None
  end.

(** The style elements [finalize] makes of the pruned sheets: one for
    each list that is not empty. *)
Definition styleElementsOf (used : list (list string)) : list Cloned :=
  flat_map
    (fun rules =>
       match rules with
       | [] => []
       | _ => [CElem (createElement "STYLE") (textContent (Js.join " " rules))]
       end) used.

(** *** Pruning *)

(** The text handed to the selector query for a rule: its selector, or
    the text of [undefined] for a rule that has none. *)
Definition selectorOf (r : CSSRule) : string := default "undefined" (selectorText r).

(** The live document accepts the selector of the rule. *)
Definition accepted (platform : Platform) (root : option Node) (r : CSSRule) : Prop :=
  querySelectorAll platform root (selectorOf r) <> None.

(** The selector of the rule matches at least one element of the live
    document. *)
Definition matchesSome (platform : Platform) (root : option Node) (r : CSSRule) : bool :=
  match querySelectorAll platform root (selectorOf r) with
  | Some (S _) => true
  | _ => false
  end.


(** *** Images *)

(** The claim on images: the clone has no children and carries the alt,
    id, width and height of the live image, and no other attribute. *)
Definition imageCarriesFour (sib : Siblings) (e : Element) (kids : list Node)
    (cache : gmap StyleKey CSSStyleDeclaration) : Prop :=
  exists img,
    deepCloneWithStyles sib (Elem e kids) cache = (Some (CElem img []), cache) /\
    reflected img "alt" = alt e /\
    reflected img "id" = id e /\
    cattributes img !! "width" = Some (pretty (width e)) /\
    cattributes img !! "height" = Some (pretty (height e)) /\
    dom (cattributes img) ⊆ imageAttributes.

(** The error of [createDomElements] on a document without a root. *)
Definition rootIsNull : Error :=
  mkError "TypeError" "Cannot read properties of null (reading 'nodeType')".

(** The error of the assignment to undeclared names in strict code. *)
Definition rootNodeUndeclared : Error :=
  mkError "ReferenceError" "rootNode is not defined".

End Spec.

(** ** Concrete pages and elements *)

Module Examples.
Import Dom Browser Snapshot Spec.

(** Two live elements of one shape, and a third with the same classes
    written in the other order. *)
Definition divRed : Element :=
  mkElement "DIV" {[ "class" := "b a" ]}
            [("color", "rgb(255, 0, 0)"); ("display", "block")] (Some ∅) 0 0 None.

Definition divBlue : Element :=
  mkElement "DIV" {[ "class" := "b a" ]}
            [("color", "rgb(0, 0, 255)"); ("display", "block")] (Some ∅) 0 0 None.

Definition divSwapped : Element :=
  mkElement "DIV" {[ "class" := "a b" ]}
            [("color", "rgb(255, 0, 0)"); ("display", "block")] (Some ∅) 0 0 None.

(** An element whose inline style names a property. *)
Definition divInline : Element :=
  mkElement "DIV" {[ "style" := "color:red" ]}
            [("color", "rgb(255, 0, 0)"); ("display", "block")]
            (Some {[ "color" := "red" ]}) 0 0 None.

(** An image with its four properties and a source. *)
Definition logo : Element :=
  mkElement "IMG" {[ "alt" := "Logo"; "id" := "logo"; "src" := "logo.png" ]}
            [] (Some ∅) 120 40 None.

Definition spanElement : Element := mkElement "SPAN" ∅ [] (Some ∅) 0 0 None.


Definition htmlElement : Element := mkElement "HTML" ∅ [] (Some ∅) 0 0 None.
Definition headElement : Element := mkElement "HEAD" ∅ [] (Some ∅) 0 0 None.
Definition bodyElement : Element := mkElement "BODY" ∅ [] (Some ∅) 0 0 None.

Definition simpleTree : Node :=
  Elem htmlElement [Elem headElement []; Elem bodyElement [Text "hi"]].

(** A page with a doctype, no style sheet, an empty storage, support for
    mutation observers and no global named [observeDOM]. *)
Definition simplePage : Page :=
  mkPage (Some "html") (Some simpleTree) [] ∅ [] [] true 0 Js.Undefined false.

(** A platform without network. *)
Definition offline : Platform :=
  mkPlatform (fun _ => None) (fun _ => []) (fun _ _ => Some 0%nat).

(** A platform on which only the proxy answers. *)
Definition proxyOnly : Platform :=
  mkPlatform
    (fun url => if String.prefix proxyUrl url
                then Some (mkResponse (Some "p{color:red}")) else None)
    (fun text => if String.eqb text "p{color:red}"
                 then [mkRule (Some "p") "p { color: red; }"] else [])
    (fun _ _ => Some 1%nat).

Definition crossOriginSheet : StyleSheet :=
  mkSheet None (Some "https://cdn.example/site.css").

Definition inlineSheet : StyleSheet :=
  mkSheet (Some [mkRule (Some "body") "body { margin: 0px; }"]) None.

(** The simple page with a readable sheet followed by a cross-origin one. *)
Definition crossOriginPage : Page :=
  mkPage (Some "html") (Some simpleTree) [inlineSheet; crossOriginSheet]
         ∅ [] [] true 0 Js.Undefined false.

(** A serializer that prints the doctype and stands for the tree by
    its root tag. *)
Definition outline (doc : Document) : string :=
  match docDoctype doc with
  | Some name => "<!DOCTYPE " ++ name ++ ">"
  | None => ""
  end ++
  match docRoot doc with
  | Some (CElem e _) => "<" ++ Js.toLowerCase (ctagName e) ++ ">"
  | _ => ""
  end.

(** The simple page in sloppy mode. *)
Definition sloppyPage : Page :=
  mkPage (Some "html") (Some simpleTree) [] ∅ [] [] true 0 Js.Undefined true.



Definition divElement : Element := mkElement "DIV" ∅ [] (Some ∅) 0 0 None.

(** A script element of an XML document, its tag in mixed case, and an
    element whose tag is written with the long s (U+017F). *)
Definition mixedCaseScript : Element := mkElement "Script" ∅ [] (Some ∅) 0 0 None.
Definition longSScript : Element :=
  mkElement (String (ascii_of_N 197) (String (ascii_of_N 191) "CRIPT")) ∅ [] (Some ∅) 0 0 None.
Definition scriptElement : Element := mkElement "SCRIPT" ∅ [] (Some ∅) 0 0 None.

(** A body with blank text between two divs and after a span, a script
    and an image. *)
Definition mixedBody : Node :=
  Elem bodyElement
    [Elem divElement []; Text " "; Elem divElement [];
     Elem scriptElement [Text "run()"];
     Elem spanElement [Text "a"]; Text " "; Elem logo [Text "x"]].

(** A clone of the simple tree, and the style-less pieces of it. *)
Definition clonedHead : Cloned := CElem (cloneElement headElement) [].
Definition clonedBody : Cloned := CElem (cloneElement bodyElement) [CText "hi"].

(** A page without a root element. *)
Definition rootlessPage : Page :=
  mkPage (Some "html") None [] ∅ [] [] true 0 Js.Undefined true.

(** The simple page in sloppy mode with the two sheets. *)
Definition sloppySheetsPage : Page :=
  mkPage (Some "html") (Some simpleTree) [inlineSheet; crossOriginSheet]
         ∅ [] [] true 0 Js.Undefined true.

(** An element that names [background-color] in its style attribute. *)
Definition divBackground : Element :=
  mkElement "DIV" {[ "style" := "background-color:red" ]}
            [("color", "rgb(0, 0, 0)")] (Some {[ "background-color" := "red" ]}) 0 0 None.

(** A cloned html element around a body only. *)
Definition headlessRoot : Cloned :=
  CElem (cloneElement htmlElement) [clonedBody].

(** A cloned html element around a head and a body. *)
Definition clonedRoot : Cloned :=
  CElem (cloneElement htmlElement) [clonedHead; clonedBody].

(** An element with a custom property, and a cache that holds under its
    key the style of an earlier element of its shape. *)
Definition divGap : Element :=
  mkElement "DIV" ∅ [("--gap", "4px"); ("display", "block")] (Some ∅) 0 0 None.

Definition gapCache : gmap StyleKey CSSStyleDeclaration :=
  {[ styleKey divGap := [("--gap", "8px"); ("display", "block")] ]}.

(** An image wider than a reflected attribute can say. *)
Definition wideImage : Element :=
  mkElement "IMG" {[ "alt" := "Map" ]} [] (Some ∅) 2147483648 40 None.

(** A platform whose selector query rejects the empty string and
    [:first], finds no [nav] and finds one element for any other text. *)
Definition strictSelectors : Platform :=
  mkPlatform (fun _ => None) (fun _ => [])
    (fun _ selector =>
       if String.eqb selector "" || String.eqb selector ":first" then None
       else if String.eqb selector "nav" then Some 0%nat else Some 1%nat).

Definition bodyRule : CSSRule := mkRule (Some "body") "body { margin: 0px; }".
Definition navRule : CSSRule := mkRule (Some "nav") "nav { display: none; }".

(** The rule of [@page :first]: its selector text is [:first]. *)
Definition pageRule : CSSRule := mkRule (Some ":first") "@page :first { margin: 1in; }".

(** The simple page on a browser without mutation observers. *)
Definition legacyPage : Page :=
  mkPage (Some "html") (Some simpleTree) [] ∅ [] [] false 0 Js.Undefined true.

End Examples.

(** * Properties *)

(** ** Strings *)

Module JsFacts.
Import Js Spec.

Lemma prefix_split (p s : string) :
  String.prefix p s = true <-> exists post, s = p ++ post.
Proof.
  revert p; induction s as [|d s IH]; intros [|c p]; simpl.
  - split; [intros _; now exists "" | reflexivity].
  - split; [discriminate | intros [post H]; discriminate].
  - split; [intros _; now exists (String d s) | reflexivity].
  - destruct (Ascii.ascii_dec c d) as [->|Hne].
    + rewrite IH. split; intros [post H]; exists post; [now rewrite H | now inversion H].
    + split; [discriminate | intros [post H]; inversion H; congruence].
Qed.

Lemma indexOfFrom_found (needle hay : string) (i : Z) :
  0 <= i ->
  (indexOfFrom needle hay i <> -1 <-> occursIn needle hay).
Proof.
  revert i; induction hay as [|c hay IH]; intros i Hi.
  - cbn [indexOfFrom]. destruct (String.prefix needle "") eqn:Hp.
    + split; [intros _ | lia].
      apply prefix_split in Hp as [post Hp]. now exists "", post.
    + split; [congruence |].
      intros [pre [post H]].
      destruct pre; [| discriminate].
      assert (String.prefix needle "" = true) by (apply prefix_split; now exists post).
      congruence.
  - cbn [indexOfFrom]. destruct (String.prefix needle (String c hay)) eqn:Hp.
    + split; [intros _ | lia].
      apply prefix_split in Hp as [post Hp]. now exists "", post.
    + rewrite (IH (i + 1)) by lia. split.
      * intros [pre [post H]]. exists (String c pre), post. simpl. now rewrite H.
      * intros [pre [post H]]. destruct pre as [|d pre].
        -- assert (String.prefix needle (String c hay) = true)
             by (apply prefix_split; now exists post).
           congruence.
        -- inversion H. now exists pre, post.
Qed.

Lemma indexOf_found (hay needle : string) :
  indexOf hay needle <> -1 <-> occursIn needle hay.
Proof. apply indexOfFrom_found; lia. Qed.

Lemma mapChars_length (f : ascii -> ascii) (s : string) :
  String.length (mapChars f s) = String.length s.
Proof. induction s; simpl; congruence. Qed.

(** *** Letter case *)

Lemma toLowerCase_cons (c : ascii) (rest : string) :
  toLowerCase (String c rest) =
    match rest with
    | String c2 (String c3 rest3) =>
        match lowerOfThree (N_of_ascii c) (N_of_ascii c2) (N_of_ascii c3) with
        | Some out => out ++ toLowerCase rest3
        | None => String (lowerChar c) (toLowerCase rest)
        end
    | _ => String (lowerChar c) (toLowerCase rest)
    end.
Proof. destruct rest as [|c2 [|c3 rest3]]; reflexivity. Qed.

Lemma lowerOfThree_k (b1 b2 b3 : N) (out : string) :
  lowerOfThree b1 b2 b3 = Some out -> out = "k".
Proof. unfold lowerOfThree. destruct (_ && _ && _)%N; congruence. Qed.

(** A character that the lower-case form shows and that is not k comes
    from the character at the same place. *)
Lemma toLowerCase_cons_inv (c d : ascii) (rest out : string) :
  toLowerCase (String c rest) = String d out ->
  d <> "k"%char ->
  lowerChar c = d /\ toLowerCase rest = out.
Proof.
  rewrite toLowerCase_cons. intros Heq Hd.
  destruct rest as [|c2 [|c3 rest3]]; try (injection Heq as <- <-; now split).
  destruct (lowerOfThree _ _ _) as [o|] eqn:Hk.
  - apply lowerOfThree_k in Hk. subst o.
    change ("k" ++ toLowerCase rest3) with (String "k" (toLowerCase rest3)) in Heq.
    injection Heq as <- _. contradiction.
  - injection Heq as <- <-. now split.
Qed.

Lemma toLowerCase_nil_inv (s : string) : toLowerCase s = "" -> s = "".
Proof.
  destruct s as [|c rest]; [reflexivity |]. rewrite toLowerCase_cons.
  destruct rest as [|c2 [|c3 rest3]]; try discriminate.
  destruct (lowerOfThree _ _ _) as [o|] eqn:Hk; [| discriminate].
  apply lowerOfThree_k in Hk. subst o.
  change ("k" ++ toLowerCase rest3) with (String "k" (toLowerCase rest3)).
  discriminate.
Qed.

Lemma lowerChar_inv (c d : ascii) :
  lowerChar c = d -> c = d \/ c = upperChar d.
Proof. intros <-. destruct c as [[] [] [] [] [] [] [] []]; cbn; auto. Qed.

Lemma lower_upper_char (c : ascii) : lowerChar (upperChar c) = lowerChar c.
Proof. destruct c as [[] [] [] [] [] [] [] []]; reflexivity. Qed.

Lemma upper_lower_char (c : ascii) : upperChar (lowerChar c) = upperChar c.
Proof. destruct c as [[] [] [] [] [] [] [] []]; reflexivity. Qed.

Lemma upperOfTwo_ascii (b1 b2 : N) : (b1 < 128)%N -> upperOfTwo b1 b2 = None.
Proof.
  intros Hb. unfold upperOfTwo.
  destruct (N.eqb_spec b1 197); [lia |].
  destruct (N.eqb_spec b1 196); [lia |].
  destruct (N.eqb_spec b1 195); [lia |]. reflexivity.
Qed.

Lemma upperOfThree_ascii (b1 b2 b3 : N) : (b1 < 128)%N -> upperOfThree b1 b2 b3 = None.
Proof.
  intros Hb. unfold upperOfThree. destruct (N.eqb_spec b1 239); [lia | reflexivity].
Qed.

Lemma lowerOfThree_ascii (b1 b2 b3 : N) : (b1 < 128)%N -> lowerOfThree b1 b2 b3 = None.
Proof.
  intros Hb. unfold lowerOfThree. destruct (N.eqb_spec b1 226); [lia | reflexivity].
Qed.

(** On ASCII strings the two maps work character by character. *)
Lemma toUpperCase_ascii (s : string) :
  isAscii s = true -> toUpperCase s = mapChars upperChar s.
Proof.
  induction s as [|c rest IH]; [reflexivity |].
  cbn [isAscii]. rewrite andb_true_iff, N.ltb_lt. intros [Hc Hrest].
  specialize (IH Hrest). cbn [mapChars]. rewrite <- IH.
  destruct rest as [|c2 rest2]; [reflexivity |].
  change (toUpperCase (String c (String c2 rest2))) with
    (match upperOfTwo (N_of_ascii c) (N_of_ascii c2) with
     | Some out => out ++ toUpperCase rest2
     | None =>
         match rest2 with
         | String c3 rest3 =>
             match upperOfThree (N_of_ascii c) (N_of_ascii c2) (N_of_ascii c3) with
             | Some out => out ++ toUpperCase rest3
             | None => String (upperChar c) (toUpperCase (String c2 rest2))
             end
         | EmptyString => String (upperChar c) (toUpperCase (String c2 rest2))
         end
     end).
  rewrite (upperOfTwo_ascii _ _ Hc).
  destruct rest2 as [|c3 rest3]; [reflexivity |].
  now rewrite (upperOfThree_ascii _ _ _ Hc).
Qed.

Lemma toLowerCase_ascii (s : string) :
  isAscii s = true -> toLowerCase s = mapChars lowerChar s.
Proof.
  induction s as [|c rest IH]; [reflexivity |].
  cbn [isAscii]. rewrite andb_true_iff, N.ltb_lt. intros [Hc Hrest].
  specialize (IH Hrest). cbn [mapChars]. rewrite <- IH, toLowerCase_cons.
  destruct rest as [|c2 [|c3 rest3]]; try reflexivity.
  now rewrite (lowerOfThree_ascii _ _ _ Hc).
Qed.

Lemma mapChars_lower_upper (s : string) :
  mapChars lowerChar (mapChars upperChar s) = mapChars lowerChar s.
Proof.
  induction s as [|c s IH]; cbn [mapChars]; [reflexivity |].
  now rewrite lower_upper_char, IH.
Qed.

Lemma mapChars_upper_lower (s : string) :
  mapChars upperChar (mapChars lowerChar s) = mapChars upperChar s.
Proof.
  induction s as [|c s IH]; cbn [mapChars]; [reflexivity |].
  now rewrite upper_lower_char, IH.
Qed.

Lemma truthy_false (s : string) : truthy s = false -> s = "".
Proof. destruct s; [reflexivity | discriminate]. Qed.

Lemma truthy_true (s : string) : truthy s = true <-> s <> "".
Proof. destruct s; cbn; split; congruence. Qed.

End JsFacts.

(** ** Text nodes, images and pruning *)

Module ClonerFacts.
Import Dom Browser Snapshot Spec Examples.

Lemma isBlankCharacter_spec (z : Z) :
  isBlankCharacter z = true <-> In z blankCodes.
Proof.
  unfold isBlankCharacter, blankCodes. cbn [In].
  rewrite !orb_true_iff, !Z.eqb_eq. intuition congruence.
Qed.

Lemma onlyBlankCharacters_spec (s : string) :
  onlyBlankCharacters s = true <-> blankOnly s.
Proof.
  unfold blankOnly. induction s as [|c s IH]; cbn [onlyBlankCharacters list_ascii_of_string].
  - split; [intros _ c [] | reflexivity].
  - destruct (isBlankCharacter (Js.charCode c)) eqn:Hc; cbn [negb].
    + rewrite IH. apply isBlankCharacter_spec in Hc. split.
      * intros H d [<-|Hd]; auto.
      * intros H d Hd. apply H. now right.
    + split; [discriminate |]. intros H.
      assert (In (Js.charCode c) blankCodes) as Hin by (apply H; now left).
      apply isBlankCharacter_spec in Hin. congruence.
Qed.



(** What the cloner does with a text node. *)
Lemma deepClone_text (sib : Siblings) (v : string)
    (cache : gmap StyleKey CSSStyleDeclaration) :
  deepCloneWithStyles sib (Text v) cache =
    (if isEmptyTextNode sib (Text v) then None else Some (CText v), cache).
Proof.
  cbn [deepCloneWithStyles]. unfold isIgnored. cbn [nodeTagName].
  now destruct (isEmptyTextNode sib (Text v)).
Qed.



Lemma hasTagName_img (e : Element) (kids : list Node) :
  hasTagName (Elem e kids) "img" = true -> Js.toLowerCase (tagName e) = "img".
Proof. unfold hasTagName. cbn [nodeTagName]. now rewrite String.eqb_eq. Qed.

Lemma img_tag_not_ignored (t : string) :
  Js.toLowerCase t = "img" -> Js.toUpperCase t ∉ ignoreTags.
Proof.
  intros Hlow.
  destruct t as [|c1 r1]; [discriminate |].
  apply JsFacts.toLowerCase_cons_inv in Hlow as [H1 Hlow]; [| discriminate].
  destruct r1 as [|c2 r2]; [discriminate |].
  apply JsFacts.toLowerCase_cons_inv in Hlow as [H2 Hlow]; [| discriminate].
  destruct r2 as [|c3 r3]; [discriminate |].
  apply JsFacts.toLowerCase_cons_inv in Hlow as [H3 Hlow]; [| discriminate].
  apply JsFacts.toLowerCase_nil_inv in Hlow. subst r3.
  apply JsFacts.lowerChar_inv in H1, H2, H3.
  unfold ignoreTags. rewrite elem_of_list_to_set.
  destruct H1 as [-> | ->], H2 as [-> | ->], H3 as [-> | ->];
    intros Hin;
    repeat (apply elem_of_cons in Hin as [Heq|Hin];
            [vm_compute in Heq; discriminate Heq |]);
    now apply elem_of_nil in Hin.
Qed.

Lemma deepClone_img (sib : Siblings) (e : Element) (kids : list Node)
    (cache : gmap StyleKey CSSStyleDeclaration) :
  hasTagName (Elem e kids) "img" = true ->
  deepCloneWithStyles sib (Elem e kids) cache =
    (Some (CElem (computeImageElement e) []), cache).
Proof.
  intros Himg. cbn [deepCloneWithStyles]. rewrite Himg.
  unfold isIgnored, isEmptyTextNode. cbn [nodeType nodeTagName].
  change (negb (1 =? TEXT_NODE)) with true. cbv iota.
  rewrite bool_decide_eq_false_2; [reflexivity |].
  now apply img_tag_not_ignored, (hasTagName_img e kids).
Qed.

Lemma computeImageElement_attributes (e : Element) :
  cattributes (computeImageElement e) =
    <["height" := reflectUnsignedLong (height e)]>
      (<["width" := reflectUnsignedLong (width e)]>
         ((if Js.truthy (id e) then <["id" := id e]> else (fun m => m))
            ((if Js.truthy (alt e) then <["alt" := alt e]> else (fun m => m)) ∅))).
Proof.
  unfold computeImageElement.
  destruct (Js.truthy (alt e)), (Js.truthy (id e)); reflexivity.
Qed.

Lemma computeImageElement_style (e : Element) :
  cstyleAttribute (computeImageElement e) = NoStyleAttribute.
Proof.
  unfold computeImageElement.
  destruct (Js.truthy (alt e)), (Js.truthy (id e)); reflexivity.
Qed.

Lemma reflectUnsignedLong_small (n : N) :
  (n <= 2147483647)%N -> reflectUnsignedLong n = pretty n.
Proof.
  intros Hn. unfold reflectUnsignedLong. cbv zeta.
  rewrite N.mod_small by lia.
  now destruct (N.leb_spec n 2147483647); [| lia].
Qed.

(** C8, amended: an element whose tag is img is not deep-cloned: the
    cloner answers with a new image element without children whose alt
    and id are those of the live image, whose width and height
    attributes are what the reflection of an unsigned long writes for
    the live width and height (the number itself up to 2147483647), and
    which has no style attribute and no attribute beyond these four. *)
Theorem img_replaced_by_bare_image
    (sib : Siblings) (e : Element) (kids : list Node)
    (cache : gmap StyleKey CSSStyleDeclaration) (a i : string) (w h : N) :
  hasTagName (Elem e kids) "img" = true ->
  alt e = a -> id e = i -> width e = w -> height e = h ->
  exists img,
    deepCloneWithStyles sib (Elem e kids) cache = (Some (CElem img []), cache) /\
    reflected img "alt" = a /\
    reflected img "id" = i /\
    cattributes img !! "width" = Some (reflectUnsignedLong w) /\
    cattributes img !! "height" = Some (reflectUnsignedLong h) /\
    ((w <= 2147483647)%N -> cattributes img !! "width" = Some (pretty w)) /\
    ((h <= 2147483647)%N -> cattributes img !! "height" = Some (pretty h)) /\
    cstyleAttribute img = NoStyleAttribute /\
    dom (cattributes img) ⊆ imageAttributes.
Proof.
  intros Himg <- <- <- <-. exists (computeImageElement e).
  split; [now apply deepClone_img |].
  rewrite computeImageElement_style.
  unfold reflected. rewrite computeImageElement_attributes.
  assert (forall m : gmap string string,
            <["height" := reflectUnsignedLong (height e)]>
              (<["width" := reflectUnsignedLong (width e)]> m) !! "width"
            = Some (reflectUnsignedLong (width e))) as Hwidth.
  { intros m. rewrite lookup_insert_ne by discriminate. apply lookup_insert_eq. }
  assert (forall m : gmap string string,
            <["height" := reflectUnsignedLong (height e)]> m !! "height"
            = Some (reflectUnsignedLong (height e))) as Hheight.
  { intros m. apply lookup_insert_eq. }
  rewrite Hwidth, Hheight.
  destruct (Js.truthy (alt e)) eqn:Ha, (Js.truthy (id e)) eqn:Hi;
    try apply JsFacts.truthy_false in Ha; try apply JsFacts.truthy_false in Hi;
    repeat split;
    try (intros Hsmall; now rewrite reflectUnsignedLong_small);
    rewrite ?lookup_insert, ?lookup_empty; repeat case_decide; try done;
    rewrite ?dom_insert_L, ?dom_empty_L; unfold imageAttributes;
    intros k; rewrite !elem_of_union, !elem_of_singleton, ?elem_of_empty; tauto.
Qed.

Lemma img_replaced_by_bare_image_witness :
  exists img,
    deepCloneWithStyles noSiblings (Elem logo []) ∅ = (Some (CElem img []), ∅) /\
    reflected img "alt" = "Logo" /\
    reflected img "id" = "logo" /\
    cattributes img !! "width" = Some "120" /\
    cattributes img !! "height" = Some "40" /\
    ((120 <= 2147483647)%N -> cattributes img !! "width" = Some "120") /\
    ((40 <= 2147483647)%N -> cattributes img !! "height" = Some "40") /\
    cstyleAttribute img = NoStyleAttribute /\
    dom (cattributes img) ⊆ imageAttributes.
Proof.
  apply (img_replaced_by_bare_image noSiblings logo [] ∅ "Logo" "logo" 120 40);
    reflexivity.
Defined.

(** C8, as stated, fails on an image 2147483648 pixels wide: the width
    attribute of the clone is 0. *)
Lemma wide_image_loses_its_width :
  ~ imageCarriesFour noSiblings wideImage [] ∅.
Proof.
  intros (img & Hclone & _ & _ & Hwidth & _).
  rewrite deepClone_img in Hclone by reflexivity.
  injection Hclone as <-.
  rewrite computeImageElement_attributes in Hwidth.
  rewrite lookup_insert_ne in Hwidth by discriminate.
  rewrite lookup_insert_eq in Hwidth.
  vm_compute in Hwidth. discriminate Hwidth.
Qed.

(** The cloner on a body: the blank text between the divs and the script
    are gone, the blank text after the span stays, the image is replaced. *)
Example deepClone_mixedBody :
  fst (deepCloneWithStyles noSiblings mixedBody ∅) =
    Some (CElem (cloneElement bodyElement)
            [CElem (cloneElement divElement) [];
             CElem (cloneElement divElement) [];
             CElem (cloneElement spanElement) [CText "a"];
             CText " ";
             CElem (computeImageElement logo) []]).
Proof. reflexivity. Qed.

(** *** Pruning *)

Section Pruning.
Context (platform : Platform) (root : option Node).

Lemma selectorArgument_eq (r : CSSRule) : selectorArgument r = selectorOf r.
Proof. unfold selectorArgument, selectorOf. now destruct (selectorText r). Qed.

Lemma selectorMatches_accepted (r : CSSRule) :
  accepted platform root r ->
  selectorMatches platform root r = Normal (matchesSome platform root r).
Proof.
  unfold accepted, selectorMatches, matchesSome.
  change (selectorArgument r) with (selectorOf r).
  destruct (querySelectorAll platform root (selectorOf r)) as [[|n]|];
    [reflexivity | reflexivity | congruence].
Qed.

Lemma selectorMatches_rejected (r : CSSRule) :
  ~ accepted platform root r ->
  selectorMatches platform root r = Throw (notASelector (selectorOf r)).
Proof.
  unfold accepted, selectorMatches.
  change (selectorArgument r) with (selectorOf r).
  destruct (querySelectorAll platform root (selectorOf r)); [| reflexivity].
  intros H. exfalso. apply H. discriminate.
Qed.

Lemma accepted_dec (r : CSSRule) : accepted platform root r \/ ~ accepted platform root r.
Proof.
  unfold accepted. destruct (querySelectorAll platform root (selectorOf r));
    [left; discriminate | right; intros H; now apply H].
Qed.

Lemma cleanRulesLoop_off (rules : list CSSRule) (cleanRules : list string) :
  cleanRulesLoop platform root false rules cleanRules =
    Normal (cleanRules ++ map cssText rules)%list.
Proof.
  revert cleanRules; induction rules as [|r rules IH]; intros cleanRules;
    cbn [cleanRulesLoop negb map].
  - now rewrite app_nil_r.
  - rewrite IH. now rewrite <- app_assoc.
Qed.

Lemma cleanRulesLoop_on (rules : list CSSRule) (cleanRules : list string) :
  (forall r, In r rules -> accepted platform root r) ->
  cleanRulesLoop platform root true rules cleanRules =
    Normal (cleanRules ++ map cssText (List.filter (matchesSome platform root) rules))%list.
Proof.
  revert cleanRules; induction rules as [|r rules IH]; intros cleanRules Hacc;
    cbn [cleanRulesLoop negb List.filter].
  - now rewrite app_nil_r.
  - rewrite (selectorMatches_accepted r) by (apply Hacc; now left).
    assert (forall r', In r' rules -> accepted platform root r') as Hrest
      by (intros r' Hin; apply Hacc; now right).
    destruct (matchesSome platform root r); rewrite (IH _ Hrest); [| reflexivity].
    cbn [map]. now rewrite <- app_assoc.
Qed.


Lemma usedLoop_off (sheets : list (list CSSRule)) (used : list (list string)) :
  usedLoop platform root false sheets used =
    Normal (used ++ map (map cssText) sheets)%list.
Proof.
  revert used; induction sheets as [|rules sheets IH]; intros used; cbn [usedLoop map].
  - now rewrite app_nil_r.
  - rewrite cleanRulesLoop_off, IH. cbn [app]. now rewrite <- app_assoc.
Qed.

Lemma usedLoop_on (sheets : list (list CSSRule)) (used : list (list string)) :
  (forall rules r, In rules sheets -> In r rules -> accepted platform root r) ->
  usedLoop platform root true sheets used =
    Normal (used ++
            map (fun rules => map cssText (List.filter (matchesSome platform root) rules))
                sheets)%list.
Proof.
  revert used; induction sheets as [|rules sheets IH]; intros used Hacc;
    cbn [usedLoop map].
  - now rewrite app_nil_r.
  - rewrite cleanRulesLoop_on by (intros r Hr; apply (Hacc rules r); [now left | exact Hr]).
    rewrite IH by (intros rules' r Hin Hr; apply (Hacc rules' r); [now right | exact Hr]).
    cbn [app]. now rewrite <- app_assoc.
Qed.


Lemma cleanRulesLoop_normal (rules : list CSSRule) (cleanRules out : list string) :
  cleanRulesLoop platform root true rules cleanRules = Normal out ->
  forall r, In r rules -> accepted platform root r.
Proof.
  revert cleanRules; induction rules as [|r rules IH]; intros cleanRules Hout r' Hin;
    [destruct Hin |].
  cbn [cleanRulesLoop negb] in Hout.
  destruct (accepted_dec r) as [Hr | Hr].
  - destruct Hin as [<- | Hin]; [exact Hr |].
    rewrite (selectorMatches_accepted r Hr) in Hout.
    destruct (matchesSome platform root r); now apply (IH _ Hout).
  - rewrite (selectorMatches_rejected r Hr) in Hout. discriminate Hout.
Qed.

Lemma usedLoop_normal (sheets : list (list CSSRule)) (used out : list (list string)) :
  usedLoop platform root true sheets used = Normal out ->
  forall rules r, In rules sheets -> In r rules -> accepted platform root r.
Proof.
  revert used; induction sheets as [|rules sheets IH]; intros used Hout rules' r Hin Hr;
    [destruct Hin |].
  cbn [usedLoop] in Hout.
  destruct (cleanRulesLoop platform root true rules []) as [texts|e] eqn:Hclean;
    [| discriminate Hout].
  destruct Hin as [<- | Hin].
  - now apply (cleanRulesLoop_normal rules [] texts Hclean).
  - now apply (IH _ Hout rules' r).
Qed.


End Pruning.



End ClonerFacts.

(** ** Style deltas and the default-style cache *)

Module StyleFacts.
Import Dom Browser Snapshot Spec Examples.

Lemma isInlineStyle_spec (e : Element) (name : string) :
  name <> "" -> (isInlineStyle e name = true <-> namedInline e name).
Proof.
  intros Hname. unfold isInlineStyle, namedInline.
  destruct (getAttribute e "style") as [text|]; cbn [Js.truthyOpt Js.toStringOpt].
  - destruct (Js.truthy text) eqn:Ht; cbn [negb].
    + rewrite negb_true_iff, Z.eqb_neq, JsFacts.indexOf_found. split.
      * intros H. now exists text.
      * now intros [t [[= <-] H]].
    + split; [discriminate |]. intros [t [[= <-] [pre [post H]]]].
      apply JsFacts.truthy_false in Ht. subst text.
      destruct pre; [| discriminate]. destruct name; [congruence | discriminate].
  - split; [discriminate | now intros [t [[=] _]]].
Qed.

Lemma isDefaultStyle_spec (baseline : option CSSStyleDeclaration) (name value : string) :
  negb (isDefaultStyle name value baseline) = true <->
  differsFromBaseline baseline name value.
Proof.
  destruct baseline as [d|]; cbn [isDefaultStyle differsFromBaseline negb].
  - now rewrite negb_true_iff, String.eqb_neq.
  - tauto.
Qed.

Lemma keeps_spec (e : Element) (baseline : option CSSStyleDeclaration) (name : string) :
  name <> "" ->
  (keeps e baseline name = true <->
   getPropertyValue e name <> "" /\
   (differsFromBaseline baseline name (getPropertyValue e name) \/ namedInline e name)).
Proof.
  intros Hname. unfold keeps, isRetained.
  now rewrite andb_true_iff, orb_true_iff, JsFacts.truthy_true, isDefaultStyle_spec,
    (isInlineStyle_spec e name Hname).
Qed.

Lemma setStyleProperty_hasDeclarations (clone : ClonedElement) (n v : string) :
  hasDeclarations (setStyleProperty clone n v) = hasDeclarations clone.
Proof.
  unfold setStyleProperty, hasDeclarations.
  destruct (cstyle clone) as [d|] eqn:Hd; [destruct (isCustomProperty n) |];
    cbn [cstyle setStyleScriptProperty]; now rewrite ?Hd.
Qed.

Lemma setStyleProperty_declarations (clone : ClonedElement) (n v name : string) :
  styleOf (setStyleProperty clone n v) !! name =
    if declares clone n && String.eqb n name then Some v else styleOf clone !! name.
Proof.
  unfold setStyleProperty, declares, hasDeclarations, styleOf.
  destruct (cstyle clone) as [d|] eqn:Hd; cbn [andb].
  - destruct (isCustomProperty n); cbn [negb andb cstyle setStyleScriptProperty].
    + now rewrite Hd.
    + cbn [default from_option id].
      destruct (String.eqb_spec n name) as [->|Hne];
        [apply lookup_insert_eq | now apply lookup_insert_ne].
  - cbn [cstyle setStyleScriptProperty]. now rewrite Hd.
Qed.

Lemma setStyleProperty_script (clone : ClonedElement) (n v name : string) :
  cstyleProperties (setStyleProperty clone n v) !! name =
    if negb (declares clone n) && String.eqb n name then Some v
    else cstyleProperties clone !! name.
Proof.
  unfold setStyleProperty, declares, hasDeclarations.
  destruct (cstyle clone) as [d|] eqn:Hd; cbn [andb negb].
  - destruct (isCustomProperty n); cbn [negb andb cstyleProperties setStyleScriptProperty];
      [| reflexivity].
    destruct (String.eqb_spec n name) as [->|Hne];
      [apply lookup_insert_eq | now apply lookup_insert_ne].
  - cbn [cstyleProperties setStyleScriptProperty].
    destruct (String.eqb_spec n name) as [->|Hne];
      [apply lookup_insert_eq | now apply lookup_insert_ne].
Qed.

Lemma updateStyleStep_declares (e : Element) (baseline : option CSSStyleDeclaration)
    (clone : ClonedElement) (i : nat) (name : string) :
  declares (updateStyleStep e baseline clone i) name = declares clone name.
Proof.
  unfold declares, updateStyleStep. cbv zeta.
  destruct (negb _); [reflexivity |]. destruct (isRetained _ _ _ _); [| reflexivity].
  now rewrite setStyleProperty_hasDeclarations.
Qed.

Lemma updateStyleStep_lookup (e : Element) (baseline : option CSSStyleDeclaration)
    (clone : ClonedElement) (i : nat) (name : string) :
  styleOf (updateStyleStep e baseline clone i) !! name =
    if String.eqb (getPropertyName e i) name && keeps e baseline name
       && declares clone name
    then Some (getPropertyValue e name)
    else styleOf clone !! name.
Proof.
  unfold updateStyleStep, keeps. cbv zeta.
  destruct (String.eqb_spec (getPropertyName e i) name) as [->|Hne]; cbn [andb].
  - destruct (Js.truthy (getPropertyValue e name)); cbn [negb andb]; [| reflexivity].
    destruct (isRetained e baseline name (getPropertyValue e name)); [| reflexivity].
    rewrite setStyleProperty_declarations, String.eqb_refl. cbn [andb].
    now rewrite andb_true_r.
  - destruct (negb (Js.truthy (getPropertyValue e (getPropertyName e i)))); [reflexivity |].
    destruct (isRetained _ _ _ _); [| reflexivity].
    rewrite setStyleProperty_declarations.
    apply String.eqb_neq in Hne. rewrite Hne. now rewrite andb_false_r.
Qed.

Lemma updateStyleStep_script (e : Element) (baseline : option CSSStyleDeclaration)
    (clone : ClonedElement) (i : nat) (name : string) :
  cstyleProperties (updateStyleStep e baseline clone i) !! name =
    if String.eqb (getPropertyName e i) name && keeps e baseline name
       && negb (declares clone name)
    then Some (getPropertyValue e name)
    else cstyleProperties clone !! name.
Proof.
  unfold updateStyleStep, keeps. cbv zeta.
  destruct (String.eqb_spec (getPropertyName e i) name) as [->|Hne]; cbn [andb].
  - destruct (Js.truthy (getPropertyValue e name)); cbn [negb andb]; [| reflexivity].
    destruct (isRetained e baseline name (getPropertyValue e name)); [| reflexivity].
    rewrite setStyleProperty_script, String.eqb_refl. cbn [andb].
    now rewrite andb_true_r.
  - destruct (negb (Js.truthy (getPropertyValue e (getPropertyName e i)))); [reflexivity |].
    destruct (isRetained _ _ _ _); [| reflexivity].
    rewrite setStyleProperty_script.
    apply String.eqb_neq in Hne. rewrite Hne. now rewrite andb_false_r.
Qed.

Lemma updateStyle_loop_declares (e : Element) (baseline : option CSSStyleDeclaration)
    (indices : list nat) (clone : ClonedElement) (name : string) :
  declares (fold_left (updateStyleStep e baseline) indices clone) name = declares clone name.
Proof.
  revert clone; induction indices as [|i indices IH]; intros clone;
    cbn [fold_left]; [reflexivity |].
  now rewrite IH, updateStyleStep_declares.
Qed.

Lemma updateStyle_loop_lookup (e : Element) (baseline : option CSSStyleDeclaration)
    (indices : list nat) (clone : ClonedElement) (name : string) :
  styleOf (fold_left (updateStyleStep e baseline) indices clone) !! name =
    if existsb (fun i => String.eqb (getPropertyName e i) name) indices
       && keeps e baseline name && declares clone name
    then Some (getPropertyValue e name)
    else styleOf clone !! name.
Proof.
  revert clone; induction indices as [|i indices IH]; intros clone;
    cbn [fold_left existsb]; [reflexivity |].
  rewrite IH, updateStyleStep_lookup, updateStyleStep_declares.
  destruct (String.eqb (getPropertyName e i) name), (keeps e baseline name),
    (declares clone name); cbn [orb andb]; try reflexivity;
    now destruct (existsb _ indices).
Qed.

Lemma updateStyle_loop_script (e : Element) (baseline : option CSSStyleDeclaration)
    (indices : list nat) (clone : ClonedElement) (name : string) :
  cstyleProperties (fold_left (updateStyleStep e baseline) indices clone) !! name =
    if existsb (fun i => String.eqb (getPropertyName e i) name) indices
       && keeps e baseline name && negb (declares clone name)
    then Some (getPropertyValue e name)
    else cstyleProperties clone !! name.
Proof.
  revert clone; induction indices as [|i indices IH]; intros clone;
    cbn [fold_left existsb]; [reflexivity |].
  rewrite IH, updateStyleStep_script, updateStyleStep_declares.
  destruct (String.eqb (getPropertyName e i) name), (keeps e baseline name),
    (declares clone name); cbn [orb andb negb]; try reflexivity;
    now destruct (existsb _ indices).
Qed.

Lemma enumerated_spec (e : Element) (name : string) :
  existsb (fun i => String.eqb (getPropertyName e i) name) (seq 0 (numberProperties e)) = true
  <-> enumerated e name.
Proof.
  unfold enumerated. rewrite existsb_exists. split.
  - intros [i [Hin Heq]]. apply in_seq in Hin. apply String.eqb_eq in Heq.
    exists i. split; [lia | exact Heq].
  - intros [i [Hlt Heq]]. exists i. split; [apply in_seq; lia | now apply String.eqb_eq].
Qed.

Lemma updateStyle_fst (clone : ClonedElement) (e : Element)
    (cache : gmap StyleKey CSSStyleDeclaration) :
  fst (updateStyle clone e cache) =
    fold_left (updateStyleStep e (fst (getDefaultStyle e cache)))
              (seq 0 (numberProperties e)) clone.
Proof. unfold updateStyle. now destruct (getDefaultStyle e cache). Qed.

Lemma retained_spec (e : Element) (baseline : option CSSStyleDeclaration) (name : string) :
  name <> "" ->
  (existsb (fun i => String.eqb (getPropertyName e i) name) (seq 0 (numberProperties e))
   && keeps e baseline name = true <-> retained e baseline name).
Proof.
  intros Hname. unfold retained.
  now rewrite andb_true_iff, enumerated_spec, (keeps_spec e baseline name Hname).
Qed.

(** C5, amended: a computed-style property of the live element is
    retained when it is enumerated below the property count, its value
    is not empty, and the value differs from the baseline of the shape
    or the name occurs in the text of the element's style attribute.
    On a clone with a declaration block, a retained property that is not
    a custom property becomes a declaration of the inline style with the
    live value, and a property that is not retained leaves the
    declarations as they were at its name.  A custom property, and any
    property on a clone without a declaration block, never becomes a
    declaration: when retained it is left as a script property of the
    style object, which no serialization shows. *)
Theorem updateStyle_places_property_iff
    (clone : ClonedElement) (e : Element)
    (cache : gmap StyleKey CSSStyleDeclaration) (name : string) :
  name <> "" ->
  let baseline := fst (getDefaultStyle e cache) in
  let clone' := fst (updateStyle clone e cache) in
  (isCustomProperty name = false -> cstyle clone <> None ->
   (retained e baseline name ->
    styleOf clone' !! name = Some (getPropertyValue e name)) /\
   (~ retained e baseline name ->
    styleOf clone' !! name = styleOf clone !! name)) /\
  (isCustomProperty name = true \/ cstyle clone = None ->
   styleOf clone' !! name = styleOf clone !! name /\
   (retained e baseline name ->
    cstyleProperties clone' !! name = Some (getPropertyValue e name)) /\
   (~ retained e baseline name ->
    cstyleProperties clone' !! name = cstyleProperties clone !! name)).
Proof.
  intros Hname baseline clone'. subst clone'.
  rewrite updateStyle_fst, updateStyle_loop_lookup, updateStyle_loop_script.
  fold baseline.
  pose proof (retained_spec e baseline name Hname) as Hret.
  destruct (existsb _ _ && keeps e baseline name) eqn:Hk.
  - assert (retained e baseline name) as Hyes by now apply Hret.
    split.
    + intros Hcustom Hblock.
      assert (declares clone name = true) as ->.
      { unfold declares, hasDeclarations. rewrite Hcustom.
        now destruct (cstyle clone). }
      split; [reflexivity | intros Hnot; contradiction].
    + intros Hscript.
      assert (declares clone name = false) as ->.
      { unfold declares, hasDeclarations.
        destruct Hscript as [-> | ->]; [apply andb_false_r | reflexivity]. }
      repeat split; intros Hnot; contradiction.
  - assert (~ retained e baseline name) as Hno.
    { intros Hyes. apply Hret in Hyes. discriminate. }
    cbn [andb]. repeat split; try reflexivity; intros Hyes; contradiction.
Qed.

Lemma updateStyle_places_property_iff_witness :
  styleOf (fst (updateStyle (cloneElement divBlue) divBlue
                  {[ styleKey divRed := computed divRed ]})) !! "color"
    = Some "rgb(0, 0, 255)" /\
  styleOf (fst (updateStyle (cloneElement divInline) divInline
                  {[ styleKey divInline := computed divInline ]})) !! "color"
    = Some "rgb(255, 0, 0)" /\
  styleOf (fst (updateStyle (cloneElement divRed) divRed ∅)) !! "display" = None /\
  cstyleProperties (fst (updateStyle (cloneElement divGap) divGap gapCache)) !! "--gap"
    = Some "4px".
Proof.
  split; [| split; [| split]].
  - destruct (updateStyle_places_property_iff (cloneElement divBlue) divBlue
                {[ styleKey divRed := computed divRed ]} "color")
      as [Hdecl _]; [discriminate |].
    destruct Hdecl as [Hplaced _]; [reflexivity | discriminate |].
    apply Hplaced.
    split; [exists 0%nat; split; [cbn; lia | reflexivity] |].
    split; [discriminate |].
    left. vm_compute. discriminate.
  - destruct (updateStyle_places_property_iff (cloneElement divInline) divInline
                {[ styleKey divInline := computed divInline ]} "color")
      as [Hdecl _]; [discriminate |].
    destruct Hdecl as [Hplaced _]; [reflexivity | discriminate |].
    apply Hplaced.
    split; [exists 0%nat; split; [cbn; lia | reflexivity] |].
    split; [discriminate |].
    right. exists "color:red". split; [reflexivity |]. now exists "", ":red".
  - destruct (updateStyle_places_property_iff (cloneElement divRed) divRed ∅ "display")
      as [Hdecl _]; [discriminate |].
    destruct Hdecl as [_ Hkeep]; [reflexivity | discriminate |].
    rewrite Hkeep; [reflexivity |].
    intros (_ & _ & [Hdiff | (text & Hattr & _)]).
    + vm_compute in Hdiff. now apply Hdiff.
    + discriminate.
  - destruct (updateStyle_places_property_iff (cloneElement divGap) divGap gapCache "--gap")
      as [_ Hscript]; [discriminate |].
    destruct Hscript as (_ & Hplaced & _); [now left |].
    apply Hplaced.
    split; [exists 0%nat; split; [cbn; lia | reflexivity] |].
    split; [discriminate |].
    left. vm_compute. discriminate.
Defined.

(** C5, as stated, fails on a custom property: [--gap] is retained, its
    value differs from the baseline of the shape, and the inline style
    of the clone has no declaration for it. *)
Lemma custom_property_is_not_placed :
  ~ placedIffRetained (cloneElement divGap) divGap gapCache "--gap".
Proof.
  intros [Hplaced _].
  assert (retained divGap (fst (getDefaultStyle divGap gapCache)) "--gap") as Hret.
  { split; [exists 0%nat; split; [cbn; lia | reflexivity] |].
    split; [discriminate |]. left. vm_compute. discriminate. }
  specialize (Hplaced Hret). vm_compute in Hplaced. discriminate Hplaced.
Qed.

(** *** The cache *)

Lemma getDefaultStyle_miss (e : Element) (cache : gmap StyleKey CSSStyleDeclaration) :
  cache !! styleKey e = None ->
  getDefaultStyle e cache =
    (Some (getComputedStyle e), <[styleKey e := getComputedStyle e]> cache).
Proof.
  intros Hmiss. unfold getDefaultStyle. cbv zeta. rewrite Hmiss. cbv iota.
  now rewrite lookup_insert_eq.
Qed.

Lemma getDefaultStyle_hit (e : Element) (cache : gmap StyleKey CSSStyleDeclaration)
    (d : CSSStyleDeclaration) :
  cache !! styleKey e = Some d -> getDefaultStyle e cache = (Some d, cache).
Proof.
  intros Hhit. unfold getDefaultStyle. cbv zeta. rewrite Hhit. cbv iota.
  now rewrite Hhit.
Qed.

(** Once a key is resolved, every later resolve of an element with that
    key answers with the same baseline. *)
Lemma getDefaultStyle_stable (e e' : Element) (cache : gmap StyleKey CSSStyleDeclaration) :
  styleKey e' = styleKey e ->
  fst (getDefaultStyle e' (snd (getDefaultStyle e cache))) = fst (getDefaultStyle e cache).
Proof.
  intros Hkey. destruct (cache !! styleKey e) as [d|] eqn:Hc.
  - rewrite (getDefaultStyle_hit e cache d Hc). cbn [fst snd].
    rewrite <- Hkey in Hc. now rewrite (getDefaultStyle_hit e' cache d Hc).
  - rewrite (getDefaultStyle_miss e cache Hc). cbn [fst snd].
    erewrite getDefaultStyle_hit; [reflexivity |].
    rewrite Hkey. apply lookup_insert_eq.
Qed.

(** C2, at two elements of one shape: the baseline a cache miss stores is
    the live computed style of the element at hand, so it varies between
    elements of the same tag, id and classes; no empty element is built.
    The class names enter the key in attribute order.  The first element
    of a shape is compared with itself: its clone gets no style. *)
Theorem getDefaultStyle_baseline_is_the_live_style :
  styleKey divRed = styleKey divBlue /\
  fst (getDefaultStyle divRed ∅) = Some (computed divRed) /\
  fst (getDefaultStyle divBlue ∅) = Some (computed divBlue) /\
  computed divRed <> computed divBlue /\
  styleKey divSwapped <> styleKey divRed /\
  styleOf (fst (updateStyle (cloneElement divRed) divRed ∅)) = ∅.
Proof.
  repeat split; try reflexivity; try discriminate.
Qed.

End StyleFacts.

(** ** The mutation observer *)

Module ObserverFacts.
Import Dom Browser DomObserver Examples.

Lemma typeof_is_never_undefined (v : Js.value) :
  Js.strictEquals (Js.typeof v) Js.Undefined = false.
Proof. now destruct v. Qed.

(** The guard is false on every page: the body of [trackMutation] never
    runs. *)
Lemma trackMutation_skips (w : Page) : trackMutation w = (Normal tt, w).
Proof. unfold trackMutation. now rewrite typeof_is_never_undefined. Qed.

(** What the function built inside the guard would do if it were called. *)
Lemma installObserver_sets_flag (w : Page) :
  sessionStorage (snd (installObserver w)) !! "allow_snapshot" =
    Some (if mutationObserver w then "true" else "false").
Proof.
  unfold installObserver. destruct (mutationObserver w); cbn; apply lookup_insert_eq.
Qed.

(** C1, on a page that supports mutation observers: a call to
    [trackMutation] leaves [allow_snapshot] unset and installs no
    observer, so a later mutation leaves a stored snapshot in place. *)
Theorem trackMutation_installs_nothing :
  let w := snd (trackMutation simplePage) in
  mutationObserver simplePage = true /\
  sessionStorage w !! "allow_snapshot" = None /\
  observers w = 0%nat /\
  sessionStorage (snd (mutationOccurs (snd (setItem "dom_snapshot" "<html/>" w))))
    !! "dom_snapshot" = Some "<html/>".
Proof. rewrite trackMutation_skips. repeat split. Qed.

End ObserverFacts.

(** ** Style sheet collection *)

Module CollectorFacts.
Import Dom Browser Snapshot Spec Examples.

Section Collector.
Context (platform : Platform).

Lemma loadCss_recovers (sheet : StyleSheet) (w : Page) :
  cssRules sheet = None ->
  loadCss platform (href sheet) w =
    (match recoverSheet platform sheet with
     | Some rules => Normal rules
     | None => Throw fetchFailed
     end,
     fold_left (fun w url => withRequest url w) (requestsFor platform sheet) w).
Proof.
  intros Hdirect. unfold loadCss, recoverSheet, requestsFor, bind, tryCatch,
    loadCssWithCorsAnywhere, awaitFetch, awaitText, bind, ret, throw.
  rewrite Hdirect. cbv zeta.
  destruct (fetch platform (Js.toStringOpt (href sheet))) as [response|];
    [reflexivity |].
  destruct (fetch platform (proxyUrl ++ Js.toStringOpt (href sheet))) as [response|];
    [| reflexivity].
  now destruct (responseText response).
Qed.

Lemma fold_withRequest (urls : list string) (w : Page) :
  fold_left (fun w url => withRequest url w) urls w =
    mkPage (doctype w) (documentElement w) (styleSheets w) (sessionStorage w)
           (storageLog w) (requests w ++ urls)%list (mutationObserver w)
           (observers w) (globalObserveDOM w) (sloppyMode w).
Proof.
  revert w; induction urls as [|url urls IH]; intros w; cbn [fold_left].
  - rewrite app_nil_r. now destruct w.
  - rewrite IH. unfold withRequest. cbn. now rewrite <- app_assoc.
Qed.

(** The loop, when every sheet still to visit can be recovered. *)
Lemma collectSheets_recovers (remaining : list StyleSheet)
    (recovered : list (list CSSRule)) (acc : list (list CSSRule)) (w : Page) :
  map (recoverSheet platform) remaining = map Some recovered ->
  collectSheets platform remaining acc w =
    (Normal (acc ++ recovered)%list,
     fold_left (fun w url => withRequest url w)
               (concat (map (requestsFor platform) remaining)) w).
Proof.
  revert recovered acc w; induction remaining as [|sheet remaining IH];
    intros recovered acc w Hrec.
  - destruct recovered; [| discriminate]. cbn. now rewrite app_nil_r.
  - destruct recovered as [|rules recovered]; [discriminate |].
    cbn [map] in Hrec. injection Hrec as Hsheet Hrest.
    cbn [collectSheets map concat]. rewrite fold_left_app. unfold bind.
    destruct (cssRules sheet) as [direct|] eqn:Hdirect.
    + unfold recoverSheet in Hsheet. rewrite Hdirect in Hsheet.
      injection Hsheet as ->.
      unfold requestsFor. rewrite Hdirect. cbn [fold_left ret].
      rewrite (IH recovered _ _ Hrest). now rewrite <- app_assoc.
    + rewrite (loadCss_recovers sheet w Hdirect), Hsheet.
      rewrite (IH recovered _ _ Hrest). now rewrite <- app_assoc.
Qed.

(** The loop stops with the failure of the first sheet that no path
    recovers. *)
Lemma collectSheets_fails (remaining : list StyleSheet)
    (acc : list (list CSSRule)) (w : Page) :
  (exists sheet, In sheet remaining /\ recoverSheet platform sheet = None) ->
  fst (collectSheets platform remaining acc w) = Throw fetchFailed.
Proof.
  revert acc w; induction remaining as [|sheet remaining IH]; intros acc w [bad [Hin Hbad]].
  - destruct Hin.
  - cbn [collectSheets]. unfold bind.
    destruct (cssRules sheet) as [direct|] eqn:Hdirect.
    + cbn [ret]. apply IH. destruct Hin as [->|Hin].
      * unfold recoverSheet in Hbad. now rewrite Hdirect in Hbad.
      * now exists bad.
    + rewrite (loadCss_recovers sheet w Hdirect).
      destruct (recoverSheet platform sheet) as [rules|] eqn:Hsheet; [| reflexivity].
      apply IH. destruct Hin as [->|Hin]; [congruence | now exists bad].
Qed.

(** C3, amended: for each sheet the rule list is read directly, else a
    fetch of its address is tried, else one fetch through the proxy.
    When every sheet is recovered by one of the three the collection
    answers with one rule list per sheet, in the order of the sheets,
    having sent the requests in that order; when some sheet is recovered
    by none of them the collection fails with the error of the proxy
    fetch. *)
Theorem initializeStyleSheets_recovers_or_fails
    (w : Page) (recovered : list (list CSSRule)) :
  (map (recoverSheet platform) (styleSheets w) = map Some recovered ->
   fst (initializeStyleSheets platform w) = Normal recovered /\
   List.length recovered = List.length (styleSheets w) /\
   requests (snd (initializeStyleSheets platform w)) =
     (requests w ++ concat (map (requestsFor platform) (styleSheets w)))%list) /\
  ((exists sheet, In sheet (styleSheets w) /\ recoverSheet platform sheet = None) ->
   fst (initializeStyleSheets platform w) = Throw fetchFailed).
Proof.
  unfold initializeStyleSheets. split.
  - intros Hrec. rewrite (collectSheets_recovers _ recovered [] w Hrec).
    rewrite fold_withRequest. cbn [fst snd requests app]. repeat split.
    apply (f_equal (@List.length _)) in Hrec. now rewrite !length_map in Hrec.
  - apply collectSheets_fails.
Qed.

End Collector.

(** C3, as stated, fails on a page with a cross-origin sheet when the
    network is down: the collection throws. *)
Lemma collection_fails_when_no_path_recovers :
  ~ collectionNeverFails offline crossOriginPage.
Proof. intros [sheets [Hres _]]. vm_compute in Hres. discriminate. Qed.

Lemma initializeStyleSheets_recovers_or_fails_witness :
  fst (initializeStyleSheets proxyOnly crossOriginPage)
    = Normal [[mkRule (Some "body") "body { margin: 0px; }"];
              [mkRule (Some "p") "p { color: red; }"]] /\
  fst (initializeStyleSheets offline crossOriginPage) = Throw fetchFailed.
Proof.
  split.
  - apply (initializeStyleSheets_recovers_or_fails proxyOnly crossOriginPage).
    reflexivity.
  - apply (initializeStyleSheets_recovers_or_fails offline crossOriginPage []).
    exists crossOriginSheet. split; [right; left; reflexivity | reflexivity].
Defined.

End CollectorFacts.

(** ** The snapshot request *)

Module RequestFacts.
Import Dom Browser Snapshot Spec Examples.

Lemma untouched_refl (w : Page) : untouched w w.
Proof. now repeat split. Qed.

Lemma untouched_trans (w1 w2 w3 : Page) :
  untouched w1 w2 -> untouched w2 w3 -> untouched w1 w3.
Proof. unfold untouched. intuition congruence. Qed.

Lemma leaves_ret {A : Type} (a : A) : leaves (ret a).
Proof. intros w. apply untouched_refl. Qed.

Lemma leaves_throw {A : Type} (e : Error) : leaves (@throw A e).
Proof. intros w. apply untouched_refl. Qed.

Lemma leaves_bind {A B : Type} (m : M A) (k : A -> M B) :
  leaves m -> (forall a, leaves (k a)) -> leaves (bind m k).
Proof.
  intros Hm Hk w. unfold bind. specialize (Hm w).
  destruct (m w) as [[a|e] w']; cbn [snd] in Hm; [| exact Hm].
  eapply untouched_trans; [exact Hm | apply Hk].
Qed.

Lemma leaves_tryCatch {A : Type} (m : M A) (handler : Error -> M A) :
  leaves m -> (forall e, leaves (handler e)) -> leaves (tryCatch m handler).
Proof.
  intros Hm Hh w. unfold tryCatch. specialize (Hm w).
  destruct (m w) as [[a|e] w']; cbn [snd] in Hm; [exact Hm |].
  eapply untouched_trans; [exact Hm | apply Hh].
Qed.

Create HintDb frame.
#[local] Hint Resolve leaves_ret leaves_throw : frame.

Ltac frame :=
  repeat first
    [ solve [auto with frame]
    | apply leaves_bind
    | apply leaves_tryCatch
    | match goal with |- forall _, _ => intro end ].

Lemma liveHead_is_never_undefined (root : option Node) :
  Js.strictEquals (liveHead root) Js.Undefined = false.
Proof.
  unfold liveHead. destruct root as [[e kids| |]|]; try reflexivity.
  destruct (String.eqb _ _); [| reflexivity]. now destruct (List.find _ kids).
Qed.

Section Request.
Context (platform : Platform) (serializeToString : Document -> string).

Lemma leaves_awaitFetch (url : string) : leaves (awaitFetch platform url).
Proof. intros w. now repeat split. Qed.

Lemma leaves_awaitText (response : Response) : leaves (awaitText response).
Proof. unfold awaitText. destruct (responseText response); auto with frame. Qed.

#[local] Hint Resolve leaves_awaitFetch leaves_awaitText : frame.

Lemma leaves_loadCss (href : option string) : leaves (loadCss platform href).
Proof. unfold loadCss, loadCssWithCorsAnywhere. frame. Qed.

#[local] Hint Resolve leaves_loadCss : frame.

Lemma leaves_collectSheets (remaining : list StyleSheet) (acc : list (list CSSRule)) :
  leaves (collectSheets platform remaining acc).
Proof.
  revert acc; induction remaining as [|sheet remaining IH]; intros acc;
    cbn [collectSheets]; [auto with frame |].
  apply leaves_bind; [destruct (cssRules sheet); auto with frame | intros rules; apply IH].
Qed.

Lemma leaves_createDomElements : leaves (createDomElements platform).
Proof.
  intros w. unfold createDomElements, initializeStyleSheets.
  pose proof (leaves_collectSheets (styleSheets w) [] w) as Hc.
  destruct (collectSheets platform (styleSheets w) [] w) as [r w']. cbn [snd] in Hc.
  destruct (documentElement w) as [root|]; [| exact Hc].
  destruct (deepCloneWithStyles noSiblings root ∅) as [clone cache].
  now destruct r.
Qed.

Lemma leaves_createDocument : leaves createDocument.
Proof. intros w. now repeat split. Qed.

Lemma leaves_appendRoot (doc : Document) (node : option Cloned) :
  leaves (appendRoot doc node).
Proof. unfold appendRoot. destruct node; auto with frame. Qed.

Lemma appendStyles_page (used : list (list string)) (doc : Document) (w : Page) :
  snd (appendStyles used doc w) = w.
Proof.
  revert doc; induction used as [|rules used IH]; intros doc; cbn [appendStyles];
    [reflexivity |].
  destruct (List.length rules =? 0)%nat; [apply IH |].
  destruct (headAppendChild doc _); [apply IH | reflexivity].
Qed.

Lemma leaves_assignUndeclared : leaves assignUndeclared.
Proof. intros w. unfold assignUndeclared. destruct (sloppyMode w); apply untouched_refl. Qed.

#[local] Hint Resolve leaves_createDomElements leaves_createDocument
  leaves_appendRoot leaves_assignUndeclared : frame.

Lemma leaves_finalize (isOptimizeCss : bool) (node : option Cloned)
    (sheets : list (list CSSRule)) :
  leaves (finalize platform isOptimizeCss node sheets).
Proof.
  unfold finalize. apply leaves_bind; [auto with frame | intros doc].
  apply leaves_bind; [auto with frame | intros doc'].
  apply leaves_bind.
  - intros w. rewrite liveHead_is_never_undefined. apply untouched_refl.
  - intros _ w. destruct (getUsedStyles platform _ isOptimizeCss sheets) as [used|e];
      [rewrite appendStyles_page |]; apply untouched_refl.
Qed.

#[local] Hint Resolve leaves_finalize : frame.

Lemma leaves_build (optimizeImport : bool) : leaves (build platform optimizeImport).
Proof. unfold build. frame. Qed.

(** The branch of [finalize] that would append a head to the live
    document is never taken, and nothing else writes to the live tree:
    a build leaves the tree under the document root, the style sheets
    and the storage as they were. *)
Lemma builtDocument_untouched (optimizeImport : bool) (w : Page) :
  untouched w (snd (builtDocument platform optimizeImport w)).
Proof.
  unfold builtDocument. pose proof (leaves_build optimizeImport w) as Hb.
  destruct (build platform optimizeImport w) as [[doc|e] w']; cbn [snd] in *;
    [exact Hb |].
  eapply untouched_trans; [exact Hb | now repeat split].
Qed.

Lemma finalize_takes_doctype (isOptimizeCss : bool) (node : option Cloned)
    (sheets : list (list CSSRule)) (w : Page) :
  doctype (snd (finalize platform isOptimizeCss node sheets w)) = None.
Proof.
  unfold finalize, bind, createDocument, appendRoot.
  destruct node as [root|]; [| reflexivity]. cbn [ret].
  cbn [documentElement withDoctype]. rewrite liveHead_is_never_undefined. cbn [ret].
  destruct (getUsedStyles platform _ isOptimizeCss sheets) as [used|e];
    [now rewrite appendStyles_page | reflexivity].
Qed.

(** Whatever the build does, the live document has no doctype after it. *)
Lemma builtDocument_takes_doctype (optimizeImport : bool) (w : Page) :
  doctype (snd (builtDocument platform optimizeImport w)) = None.
Proof.
  unfold builtDocument, build, bind.
  destruct (createDomElements platform w) as [[elements|e] w1]; [| reflexivity].
  destruct (assignUndeclared w1) as [[u|e] w2]; [| reflexivity].
  pose proof (finalize_takes_doctype optimizeImport (fst elements) (snd elements) w2) as Hf.
  now destruct (finalize platform optimizeImport (fst elements) (snd elements) w2)
    as [[doc|e] w3].
Qed.

Lemma tryCatch_build (optimizeImport : bool) (w : Page) :
  tryCatch (build platform optimizeImport) createErrorDocument w =
    (Normal (fst (builtDocument platform optimizeImport w)),
     snd (builtDocument platform optimizeImport w)).
Proof.
  unfold tryCatch, builtDocument.
  now destruct (build platform optimizeImport w) as [[doc|e] w'].
Qed.

Lemma rebuild_eq (optimizeImport : bool) (w : Page) :
  rebuild platform serializeToString optimizeImport w =
    let w1 := snd (builtDocument platform optimizeImport w) in
    let dom := serializeToString (fst (builtDocument platform optimizeImport w)) in
    (Normal dom,
     if isTrue (sessionStorage w !! "allow_snapshot")
     then withStorage (<["dom_snapshot" := dom]> (sessionStorage w))
            (SetItem "dom_snapshot" dom) (logged (GetItem "allow_snapshot") w1)
     else logged (GetItem "allow_snapshot") w1).
Proof.
  unfold rebuild, rebuildUnder, bind. rewrite tryCatch_build.
  destruct (builtDocument_untouched optimizeImport w) as (_ & _ & Hst & _).
  unfold serializeWith, getItemUnder, setItemUnder, getItem, setItem, ret, logged. cbv zeta. rewrite Hst.
  destruct (isTrue (sessionStorage w !! "allow_snapshot")); reflexivity.
Qed.

Lemma isTrue_spec (o : option string) : isTrue o = true <-> o = Some "true".
Proof.
  destruct o as [s|]; cbn [isTrue]; [| split; discriminate].
  rewrite String.eqb_eq. split; congruence.
Qed.

Lemma domWithStyles_eq (optimizeImport : bool) (w : Page) :
  domWithStyles platform serializeToString optimizeImport w =
    let w1 := logged (GetItem "allow_snapshot") w in
    if isTrue (sessionStorage w !! "allow_snapshot") then
      let w2 := logged (GetItem "dom_snapshot") w1 in
      if Js.truthyOpt (sessionStorage w !! "dom_snapshot")
      then (Normal (Js.toStringOpt (sessionStorage w !! "dom_snapshot")), w2)
      else rebuild platform serializeToString optimizeImport w2
    else rebuild platform serializeToString optimizeImport w1.
Proof.
  unfold domWithStyles, domWithStylesUnder, rebuild, bind, getItemUnder, getItem, logged.
  cbv zeta.
  destruct (isTrue (sessionStorage w !! "allow_snapshot")); [| reflexivity].
  change (sessionStorage (withStorage (sessionStorage w) (GetItem "allow_snapshot") w))
    with (sessionStorage w).
  now destruct (Js.truthyOpt (sessionStorage w !! "dom_snapshot")).
Qed.


(** A request that does not answer from the cache leaves the live
    document without its doctype. *)
Lemma rebuild_takes_doctype (optimizeImport : bool) (w : Page) :
  doctype (snd (rebuild platform serializeToString optimizeImport w)) = None.
Proof.
  rewrite rebuild_eq. cbv zeta. cbn [snd].
  pose proof (builtDocument_takes_doctype optimizeImport w) as Hd.
  now destruct (isTrue _).
Qed.

(** The tree under the document root is the same after a request. *)
Lemma domWithStyles_keeps_tree (optimizeImport : bool) (w : Page) :
  documentElement (snd (domWithStyles platform serializeToString optimizeImport w))
    = documentElement w.
Proof.
  rewrite domWithStyles_eq. cbv zeta.
  destruct (isTrue _); [destruct (Js.truthyOpt _); [reflexivity |] |];
    rewrite rebuild_eq; cbv zeta; cbn [snd];
    match goal with
    | |- context [builtDocument platform optimizeImport ?p] =>
        destruct (builtDocument_untouched optimizeImport p) as (Hroot & _)
    end;
    now destruct (isTrue _).
Qed.

End Request.



(** C9, on a page with a doctype: the request takes the doctype node out
    of the live document, and the next request serializes a document
    without it. *)
Theorem snapshot_build_detaches_the_doctype :
  doctype sloppyPage = Some "html" /\
  fst (domWithStyles offline outline false sloppyPage) = Normal "<!DOCTYPE html><html>" /\
  doctype (snd (domWithStyles offline outline false sloppyPage)) = None /\
  fst (domWithStyles offline outline false
         (snd (domWithStyles offline outline false sloppyPage))) = Normal "<html>".
Proof. repeat split. Qed.

End RequestFacts.

(** ** The cloner over whole trees *)

Module TreeFacts.
Import Dom Browser Snapshot Spec Examples.

(** Induction on nodes with the hypothesis for every child. *)
Lemma Node_children_ind (P : Node -> Prop) :
  (forall e kids, Forall P kids -> P (Elem e kids)) ->
  (forall data, P (Text data)) ->
  (forall data, P (Comment data)) ->
  forall n, P n.
Proof.
  intros HE HT HC. fix IH 1. intros [e kids|data|data].
  - apply HE. induction kids as [|k kids IHk]; constructor; [apply IH | exact IHk].
  - apply HT.
  - apply HC.
Qed.

Lemma deepClone_elem (sib : Siblings) (e : Element) (childNodes : list Node)
    (cache : gmap StyleKey CSSStyleDeclaration) :
  deepCloneWithStyles sib (Elem e childNodes) cache =
    if isIgnored sib (Elem e childNodes) then (None, cache)
    else if hasTagName (Elem e childNodes) "img"
    then (Some (CElem (computeImageElement e) []), cache)
    else
      let '(clone, cache1) :=
        if isComputeStyle (Elem e childNodes)
        then updateStyle (cloneElement e) e cache
        else (cloneElement e, cache) in
      let '(kids, cache2) := appendChildrenOf None childNodes [] cache1 in
      (Some (CElem clone kids), cache2).
Proof. reflexivity. Qed.

Lemma isIgnored_elem (sib : Siblings) (e : Element) (kids : list Node) :
  isIgnored sib (Elem e kids) = bool_decide (Js.toUpperCase (tagName e) ∈ ignoreTags).
Proof. reflexivity. Qed.

(** *** What [updateStyle] keeps *)

Lemma setStyleProperty_keeps (clone : ClonedElement) (name value : string) :
  ctagName (setStyleProperty clone name value) = ctagName clone /\
  cattributes (setStyleProperty clone name value) = cattributes clone /\
  cclassProperty (setStyleProperty clone name value) = cclassProperty clone.
Proof.
  unfold setStyleProperty.
  destruct (cstyle clone); [destruct (isCustomProperty name) |]; now repeat split.
Qed.

Lemma updateStyleStep_keeps (e : Element) (baseline : option CSSStyleDeclaration)
    (clone : ClonedElement) (i : nat) :
  ctagName (updateStyleStep e baseline clone i) = ctagName clone /\
  cattributes (updateStyleStep e baseline clone i) = cattributes clone /\
  cclassProperty (updateStyleStep e baseline clone i) = cclassProperty clone.
Proof.
  unfold updateStyleStep.
  destruct (negb (Js.truthy _)); [now repeat split |].
  destruct (isRetained _ _ _ _); [apply setStyleProperty_keeps | now repeat split].
Qed.

Lemma updateStyle_keeps (clone : ClonedElement) (e : Element)
    (cache : gmap StyleKey CSSStyleDeclaration) :
  ctagName (fst (updateStyle clone e cache)) = ctagName clone /\
  cattributes (fst (updateStyle clone e cache)) = cattributes clone /\
  cclassProperty (fst (updateStyle clone e cache)) = cclassProperty clone.
Proof.
  rewrite StyleFacts.updateStyle_fst.
  generalize (seq 0 (numberProperties e)). intros indices.
  revert clone; induction indices as [|i indices IH]; intros clone; cbn [fold_left].
  - now repeat split.
  - destruct (IH (updateStyleStep e (fst (getDefaultStyle e cache)) clone i))
      as (Ht & Ha & Hc).
    destruct (updateStyleStep_keeps e (fst (getDefaultStyle e cache)) clone i)
      as (Ht' & Ha' & Hc').
    repeat split; congruence.
Qed.

Lemma updateStyle_snd (clone : ClonedElement) (e : Element)
    (cache : gmap StyleKey CSSStyleDeclaration) :
  snd (updateStyle clone e cache) = snd (getDefaultStyle e cache).
Proof. unfold updateStyle. now destruct (getDefaultStyle e cache). Qed.

Lemma getDefaultStyle_extends (e : Element) (cache : gmap StyleKey CSSStyleDeclaration) :
  cache ⊆ snd (getDefaultStyle e cache).
Proof.
  unfold getDefaultStyle. cbv zeta. cbn [snd].
  destruct (cache !! styleKey e) eqn:Hc; [reflexivity |].
  now apply insert_subseteq.
Qed.

(** *** Invariants of the recursion *)

Lemma computeImageElement_tag (e : Element) :
  ctagName (computeImageElement e) = "IMG".
Proof.
  unfold computeImageElement. now destruct (Js.truthy (alt e)), (Js.truthy (id e)).
Qed.

Lemma appendChildrenOf_invariant (rest : list Node) :
  Forall (fun k => forall sib cache,
            cache ⊆ snd (deepCloneWithStyles sib k cache) /\
            (forall c, fst (deepCloneWithStyles sib k cache) = Some c ->
                       noIgnoredTag c = true)) rest ->
  forall prev kids cache,
    forallb noIgnoredTag kids = true ->
    cache ⊆ snd (appendChildrenOf prev rest kids cache) /\
    forallb noIgnoredTag (fst (appendChildrenOf prev rest kids cache)) = true /\
    (List.length (fst (appendChildrenOf prev rest kids cache))
     <= List.length kids + List.length rest)%nat.
Proof.
  induction 1 as [|child rest Hchild _ IH]; intros prev kids cache Hkids;
    cbn [appendChildrenOf].
  - cbn [fst snd List.length]. split; [reflexivity | split; [exact Hkids | lia]].
  - destruct (Hchild (mkSiblings prev (firstElement rest)) cache) as [Hsub Hclean].
    destruct (deepCloneWithStyles (mkSiblings prev (firstElement rest)) child cache)
      as [cloneChild cache1]. cbn [fst snd] in Hsub, Hclean.
    destruct cloneChild as [c|].
    + destruct (IH (if isElement child then Some child else prev)
                  (kids ++ [c])%list cache1) as (Hs & Hc & Hl).
      { rewrite forallb_app, Hkids. cbn [forallb]. now rewrite (Hclean c eq_refl). }
      split; [now transitivity cache1 | split; [exact Hc |]].
      rewrite length_app in Hl. cbn [List.length] in *. lia.
    + destruct (IH (if isElement child then Some child else prev) kids cache1 Hkids)
        as (Hs & Hc & Hl).
      split; [now transitivity cache1 | split; [exact Hc |]].
      cbn [List.length]. lia.
Qed.

Lemma deepClone_invariant (n : Node) :
  forall sib cache,
    cache ⊆ snd (deepCloneWithStyles sib n cache) /\
    (forall c, fst (deepCloneWithStyles sib n cache) = Some c -> noIgnoredTag c = true).
Proof.
  induction n as [e kids IH|data|data] using Node_children_ind; intros sib cache.
  - rewrite deepClone_elem, isIgnored_elem.
    destruct (bool_decide (Js.toUpperCase (tagName e) ∈ ignoreTags)) eqn:Hign.
    { split; [reflexivity | discriminate]. }
    destruct (hasTagName (Elem e kids) "img").
    { split; [reflexivity |]. intros c [= <-]. cbn [noIgnoredTag forallb].
      now rewrite computeImageElement_tag. }
    assert (exists clone cache1,
               (if isComputeStyle (Elem e kids)
                then updateStyle (cloneElement e) e cache
                else (cloneElement e, cache)) = (clone, cache1) /\
               ctagName clone = tagName e /\ cache ⊆ cache1)
      as (clone & cache1 & -> & Htag & Hsub).
    { destruct (isComputeStyle (Elem e kids)).
      - exists (fst (updateStyle (cloneElement e) e cache)),
               (snd (updateStyle (cloneElement e) e cache)).
        split; [now destruct (updateStyle (cloneElement e) e cache) |].
        split; [apply updateStyle_keeps |].
        rewrite updateStyle_snd. apply getDefaultStyle_extends.
      - exists (cloneElement e), cache. now repeat split. }
    destruct (appendChildrenOf_invariant kids IH None [] cache1 eq_refl) as (Hs & Hc & _).
    destruct (appendChildrenOf None kids [] cache1) as [kids' cache2].
    cbn [fst snd] in *. split; [now transitivity cache1 |].
    intros c [= <-]. cbn [noIgnoredTag]. now rewrite Htag, Hign, Hc.
  - rewrite ClonerFacts.deepClone_text. cbn [fst snd]. split; [reflexivity |].
    destruct (isEmptyTextNode sib (Text data)); [discriminate | now intros c [= <-]].
  - split; [reflexivity | now intros c [= <-]].
Qed.

(** X1: an element with a tag of the ignore list is dropped with all
    that is below it, without resolving any style, and no element with
    such a tag occurs anywhere in a cloned tree. *)
Theorem cloned_tree_has_no_ignored_tag
    (sib : Siblings) (n : Node) (cache : gmap StyleKey CSSStyleDeclaration) :
  (forall e kids,
     n = Elem e kids -> Js.toUpperCase (tagName e) ∈ ignoreTags ->
     deepCloneWithStyles sib n cache = (None, cache)) /\
  (forall c, fst (deepCloneWithStyles sib n cache) = Some c -> noIgnoredTag c = true).
Proof.
  split; [| apply deepClone_invariant].
  intros e kids -> Hin. rewrite deepClone_elem, isIgnored_elem.
  now rewrite bool_decide_eq_true_2.
Qed.

Lemma cloned_tree_has_no_ignored_tag_witness :
  deepCloneWithStyles noSiblings (Elem scriptElement [Text "run()"]) ∅ = (None, ∅) /\
  (exists c, fst (deepCloneWithStyles noSiblings mixedBody ∅) = Some c /\
             noIgnoredTag c = true).
Proof.
  split.
  - apply (cloned_tree_has_no_ignored_tag noSiblings (Elem scriptElement [Text "run()"]) ∅)
      with (e := scriptElement) (kids := [Text "run()"]); [reflexivity |].
    vm_compute. reflexivity.
  - eexists. split; [reflexivity |].
    apply (cloned_tree_has_no_ignored_tag noSiblings mixedBody ∅). reflexivity.
Defined.

(** X2: a text node with a character that is not blank is copied as it
    is, whatever its siblings, and a comment node is always copied, a
    blank one too; neither touches the cache. *)
Theorem text_and_comments_copied_verbatim
    (sib : Siblings) (data : string) (cache : gmap StyleKey CSSStyleDeclaration) :
  (~ blankOnly data ->
   deepCloneWithStyles sib (Text data) cache = (Some (CText data), cache)) /\
  deepCloneWithStyles sib (Comment data) cache = (Some (CComment data), cache).
Proof.
  split; [| reflexivity].
  intros Hnot. rewrite ClonerFacts.deepClone_text.
  unfold isEmptyTextNode. cbn [nodeType nodeValue].
  change (negb (3 =? TEXT_NODE)) with false. cbv iota.
  destruct (siblingIs _ _ || siblingIs _ _); [reflexivity |].
  destruct (onlyBlankCharacters data) eqn:Hb; [| reflexivity].
  apply ClonerFacts.onlyBlankCharacters_spec in Hb. contradiction.
Qed.

Lemma text_and_comments_copied_verbatim_witness :
  deepCloneWithStyles noSiblings (Text "hi") ∅ = (Some (CText "hi"), ∅) /\
  deepCloneWithStyles noSiblings (Comment " ") ∅ = (Some (CComment " "), ∅).
Proof.
  split.
  - apply (text_and_comments_copied_verbatim noSiblings "hi" ∅).
    intros Hb. apply ClonerFacts.onlyBlankCharacters_spec in Hb. discriminate.
  - apply (text_and_comments_copied_verbatim noSiblings " " ∅).
Defined.

Lemma updateStyleStep_styleAttribute (e : Element) (baseline : option CSSStyleDeclaration)
    (clone : ClonedElement) (i : nat) :
  cstyleAttribute (updateStyleStep e baseline clone i) = cstyleAttribute clone \/
  cstyleAttribute (updateStyleStep e baseline clone i) = SerializedStyle.
Proof.
  unfold updateStyleStep.
  destruct (negb (Js.truthy _)); [now left |].
  destruct (isRetained _ _ _ _); [| now left].
  unfold setStyleProperty.
  destruct (cstyle clone); [destruct (isCustomProperty _) |]; auto.
Qed.

Lemma updateStyle_styleAttribute (clone : ClonedElement) (e : Element)
    (cache : gmap StyleKey CSSStyleDeclaration) :
  cstyleAttribute (fst (updateStyle clone e cache)) = cstyleAttribute clone \/
  cstyleAttribute (fst (updateStyle clone e cache)) = SerializedStyle.
Proof.
  rewrite StyleFacts.updateStyle_fst.
  generalize (seq 0 (numberProperties e)). intros indices.
  revert clone; induction indices as [|i indices IH]; intros clone; cbn [fold_left].
  - now left.
  - destruct (IH (updateStyleStep e (fst (getDefaultStyle e cache)) clone i)) as [H | H];
      [| now right].
    rewrite H. apply updateStyleStep_styleAttribute.
Qed.

(** X3: an element that is neither ignored nor an image is cloned
    shallowly: the clone has the tag of the live element and its
    attributes other than style, and at most as many children.  When the
    tag is one of the never-styled ones the clone keeps the style
    attribute and the declarations of the live element; otherwise its
    style attribute is the authored one or, once a declaration has been
    written, the serialization of the declarations. *)
Theorem element_clone_keeps_tag_and_attributes
    (sib : Siblings) (e : Element) (childNodes : list Node)
    (cache : gmap StyleKey CSSStyleDeclaration) :
  Js.toUpperCase (tagName e) ∉ ignoreTags ->
  hasTagName (Elem e childNodes) "img" = false ->
  exists clone kids,
    fst (deepCloneWithStyles sib (Elem e childNodes) cache) = Some (CElem clone kids) /\
    ctagName clone = tagName e /\
    cattributes clone = delete "style" (attributes e) /\
    (List.length kids <= List.length childNodes)%nat /\
    (Js.toUpperCase (tagName e) ∈ noStyleTags ->
     cstyle clone = style e /\ cstyleAttribute clone = authoredStyle e) /\
    (cstyleAttribute clone = authoredStyle e \/ cstyleAttribute clone = SerializedStyle).
Proof.
  intros Hign Himg. rewrite deepClone_elem, isIgnored_elem, Himg.
  rewrite bool_decide_eq_false_2 by exact Hign.
  assert (Forall (fun k => forall sib cache,
                    cache ⊆ snd (deepCloneWithStyles sib k cache) /\
                    (forall c, fst (deepCloneWithStyles sib k cache) = Some c ->
                               noIgnoredTag c = true)) childNodes) as Hall.
  { apply Forall_forall. intros k _. apply deepClone_invariant. }
  unfold isComputeStyle. cbn [nodeTagName isElement andb].
  destruct (bool_decide (Js.toUpperCase (tagName e) ∈ noStyleTags)) eqn:Hno; cbn [negb].
  - destruct (appendChildrenOf_invariant childNodes Hall None [] cache eq_refl)
      as (_ & _ & Hlen).
    destruct (appendChildrenOf None childNodes [] cache) as [kids cache2].
    exists (cloneElement e), kids. cbn [fst] in *.
    repeat split; try assumption. now left.
  - destruct (updateStyle_keeps (cloneElement e) e cache) as (Ht & Ha & _).
    pose proof (updateStyle_styleAttribute (cloneElement e) e cache) as Hstyle.
    destruct (updateStyle (cloneElement e) e cache) as [clone cache1]. cbn [fst] in *.
    destruct (appendChildrenOf_invariant childNodes Hall None [] cache1 eq_refl)
      as (_ & _ & Hlen).
    destruct (appendChildrenOf None childNodes [] cache1) as [kids cache2].
    exists clone, kids. cbn [fst] in *.
    split; [reflexivity |]. split; [exact Ht |]. split; [exact Ha |].
    split; [exact Hlen |]. split; [| exact Hstyle].
    intros Hin. apply bool_decide_eq_false in Hno. contradiction.
Qed.

Lemma element_clone_keeps_tag_and_attributes_witness :
  exists clone kids,
    fst (deepCloneWithStyles noSiblings (Elem divInline [Text "x"])
           {[ styleKey divInline := computed divBlue ]}) = Some (CElem clone kids) /\
    ctagName clone = "DIV" /\
    cattributes clone = delete "style" (attributes divInline) /\
    (List.length kids <= 1)%nat /\
    (Js.toUpperCase "DIV" ∈ noStyleTags ->
     cstyle clone = Some {[ "color" := "red" ]} /\
     cstyleAttribute clone = AuthoredStyle "color:red") /\
    (cstyleAttribute clone = AuthoredStyle "color:red" \/
     cstyleAttribute clone = SerializedStyle).
Proof.
  apply (element_clone_keeps_tag_and_attributes noSiblings divInline [Text "x"]
           {[ styleKey divInline := computed divBlue ]}).
  - vm_compute. intros H. discriminate H.
  - reflexivity.
Defined.

(** The clone of an element that names a property in its style
    attribute: the declaration is overwritten with the computed value
    and the style attribute becomes the serialization of the block. *)
Example styled_clone_serializes_its_declarations :
  fst (deepCloneWithStyles noSiblings (Elem divInline []) ∅) =
    Some (CElem (mkCloned "DIV" ∅ SerializedStyle
                   (Some {[ "color" := "rgb(255, 0, 0)" ]}) ∅ None) []).
Proof. vm_compute. reflexivity. Qed.

(** X4: the default-style cache only grows while a tree is cloned: an
    entry it holds before is there, unchanged, after. *)
Theorem clone_only_extends_cache
    (sib : Siblings) (n : Node) (cache : gmap StyleKey CSSStyleDeclaration)
    (key : StyleKey) (d : CSSStyleDeclaration) :
  cache !! key = Some d ->
  snd (deepCloneWithStyles sib n cache) !! key = Some d.
Proof.
  intros Hin. destruct (deepClone_invariant n sib cache) as [Hsub _].
  now apply (lookup_weaken cache).
Qed.

Lemma clone_only_extends_cache_witness :
  snd (deepCloneWithStyles noSiblings mixedBody
         {[ styleKey divRed := computed divBlue ]}) !! styleKey divRed
    = Some (computed divBlue).
Proof.
  apply (clone_only_extends_cache noSiblings mixedBody
           {[ styleKey divRed := computed divBlue ]}).
  apply lookup_singleton_eq.
Defined.

End TreeFacts.

(** ** Shapes, inline styles and tag names *)

Module ShapeFacts.
Import Dom Browser Snapshot Spec Examples.

Lemma append_assoc (a b c : string) : (a ++ b) ++ c = a ++ b ++ c.
Proof.
  induction a as [|ch a IH]; [reflexivity |].
  change (String ch ((a ++ b) ++ c) = String ch (a ++ b ++ c)). now rewrite IH.
Qed.

Lemma occursIn_trans (a b c : string) :
  occursIn a b -> occursIn b c -> occursIn a c.
Proof.
  intros (pre & post & ->) (pre' & post' & ->).
  exists (pre' ++ pre), (post ++ post').
  now rewrite !append_assoc.
Qed.

Lemma isInlineStyle_true (e : Element) (name : string) :
  isInlineStyle e name = true <->
  exists text, getAttribute e "style" = Some text /\ text <> "" /\ occursIn name text.
Proof.
  unfold isInlineStyle.
  destruct (getAttribute e "style") as [text|]; cbn [Js.truthyOpt Js.toStringOpt].
  - destruct (Js.truthy text) eqn:Ht; cbn [negb].
    + rewrite negb_true_iff, Z.eqb_neq, JsFacts.indexOf_found.
      apply JsFacts.truthy_true in Ht. split.
      * intros H. now exists text.
      * now intros (t & [= <-] & _ & H).
    + apply JsFacts.truthy_false in Ht. split; [discriminate |].
      intros (t & [= <-] & Hne & _). contradiction.
  - split; [discriminate | now intros (t & [=] & _)].
Qed.

(** X5: the test for an inline style answers false when the element has
    no style attribute or an empty one, and is a test on substrings:
    once it holds for a name it holds for every name that occurs inside
    that name. *)
Theorem isInlineStyle_is_a_substring_test (e : Element) (name inner : string) :
  (Js.truthyOpt (getAttribute e "style") = false -> isInlineStyle e name = false) /\
  (isInlineStyle e name = true -> occursIn inner name -> isInlineStyle e inner = true).
Proof.
  split.
  - intros Hattr. unfold isInlineStyle. now rewrite Hattr.
  - intros Hname Hinner. apply isInlineStyle_true in Hname as (text & Hattr & Hne & Hocc).
    apply isInlineStyle_true. exists text. repeat split; try assumption.
    now apply (occursIn_trans inner name text).
Qed.

Lemma isInlineStyle_is_a_substring_test_witness :
  isInlineStyle divRed "color" = false /\
  isInlineStyle divBackground "color" = true.
Proof.
  split.
  - apply (isInlineStyle_is_a_substring_test divRed "color" "color"). reflexivity.
  - apply (isInlineStyle_is_a_substring_test divBackground "background-color" "color").
    + reflexivity.
    + now exists "background-", "".
Defined.

Lemma updateStyle_loop_fixed (e : Element) (baseline : option CSSStyleDeclaration)
    (indices : list nat) (clone : ClonedElement) :
  (forall i, updateStyleStep e baseline clone i = clone) ->
  fold_left (updateStyleStep e baseline) indices clone = clone.
Proof.
  intros Hstep. induction indices as [|i indices IH]; cbn [fold_left]; [reflexivity |].
  now rewrite Hstep.
Qed.

(** X6: the first element of a shape met during a build is compared
    with its own computed style: when the cache has no entry for its key
    and it has no style attribute (or an empty one), its clone gets no
    style at all, and the element's computed style becomes the baseline
    of the shape. *)
Theorem first_element_of_a_shape_gets_no_style
    (clone : ClonedElement) (e : Element) (cache : gmap StyleKey CSSStyleDeclaration) :
  cache !! styleKey e = None ->
  Js.truthyOpt (getAttribute e "style") = false ->
  updateStyle clone e cache = (clone, <[styleKey e := getComputedStyle e]> cache).
Proof.
  intros Hmiss Hattr. unfold updateStyle.
  rewrite (StyleFacts.getDefaultStyle_miss e cache Hmiss). cbn [hasStyle negb].
  rewrite updateStyle_loop_fixed; [reflexivity |].
  intros i. unfold updateStyleStep.
  destruct (negb (Js.truthy _)); [reflexivity |].
  unfold isRetained, isDefaultStyle, getPropertyValue, isInlineStyle.
  now rewrite String.eqb_refl, Hattr.
Qed.

Lemma first_element_of_a_shape_gets_no_style_witness :
  updateStyle (cloneElement divRed) divRed ∅
    = (cloneElement divRed, {[ styleKey divRed := computed divRed ]}).
Proof.
  apply (first_element_of_a_shape_gets_no_style (cloneElement divRed) divRed ∅);
    reflexivity.
Defined.

(** *** Keys *)

Lemma split_not_nil (sep : ascii) (s : string) : Js.split sep s <> [].
Proof.
  destruct s as [|c s]; cbn [Js.split]; [discriminate |].
  destruct (Ascii.eqb c sep); [discriminate |].
  destruct (Js.split sep s); discriminate.
Qed.

(** Joining what a split gave returns the string that was split. *)
Lemma join_split (sep : ascii) (s : string) :
  Js.join (String sep "") (Js.split sep s) = s.
Proof.
  induction s as [|c s IH]; cbn [Js.split]; [reflexivity |].
  pose proof (split_not_nil sep s) as Hne.
  destruct (Ascii.eqb_spec c sep) as [->|Hc].
  - destruct (Js.split sep s) as [|w ws] eqn:Hs; [contradiction |].
    cbn [Js.join]. cbn. now rewrite <- IH.
  - destruct (Js.split sep s) as [|w ws] eqn:Hs; [contradiction |].
    destruct ws as [|w' ws]; cbn [Js.join] in *; cbn; now rewrite <- IH.
Qed.

Lemma styleKey_classes (e : Element) :
  styleKey e =
    (tagName e, getAttribute e "id",
     match effectiveClass e with
     | Some text => [Js.split " " text]
     | None => []
     end).
Proof.
  unfold styleKey, effectiveClass.
  destruct (getAttribute e "class") as [text|]; [| reflexivity].
  cbn [Js.truthyOpt Js.toStringOpt]. now destruct (Js.truthy text).
Qed.

(** X7: two elements have the same style key exactly when they have the
    same tag name, the same id attribute and the same class attribute
    text, an absent class attribute counting as an empty one: the class
    names are compared in the order they are written. *)
Theorem styleKey_compares_class_text (e1 e2 : Element) :
  styleKey e1 = styleKey e2 <->
  tagName e1 = tagName e2 /\
  getAttribute e1 "id" = getAttribute e2 "id" /\
  effectiveClass e1 = effectiveClass e2.
Proof.
  rewrite !styleKey_classes. split.
  - intros [= Htag Hid Hclass]. repeat split; try assumption.
    destruct (effectiveClass e1) as [t1|], (effectiveClass e2) as [t2|];
      try discriminate; [| reflexivity].
    injection Hclass as Hsplit.
    now rewrite <- (join_split " " t1), <- (join_split " " t2), Hsplit.
  - now intros (-> & -> & ->).
Qed.

(** *** Letter case of tag names *)

Lemma upper_is_iff_lower_is (t upper lower : string) :
  Js.isAscii t = true ->
  Js.mapChars Js.lowerChar upper = lower -> Js.mapChars Js.upperChar lower = upper ->
  (Js.toUpperCase t = upper <-> Js.toLowerCase t = lower).
Proof.
  intros Ht Hl Hu.
  rewrite (JsFacts.toUpperCase_ascii t Ht), (JsFacts.toLowerCase_ascii t Ht).
  split; intros H.
  - now rewrite <- JsFacts.mapChars_lower_upper, H.
  - now rewrite <- JsFacts.mapChars_upper_lower, H.
Qed.

(** X8: on an element whose tag name is written in ASCII, the ignore
    test, which looks the upper-cased tag up in a set, agrees with the
    case-blind comparison of [hasTagName]: the element is ignored
    exactly when its tag is script, noscript, style or link in any mix
    of letter cases. *)
Theorem isIgnored_agrees_with_hasTagName
    (sib : Siblings) (e : Element) (kids : list Node) :
  Js.isAscii (tagName e) = true ->
  isIgnored sib (Elem e kids) =
    existsb (hasTagName (Elem e kids)) ["script"; "noscript"; "style"; "link"].
Proof.
  intros Hascii.
  rewrite TreeFacts.isIgnored_elem. unfold hasTagName. cbn [nodeTagName existsb].
  change (Js.toLowerCase "script") with "script".
  change (Js.toLowerCase "noscript") with "noscript".
  change (Js.toLowerCase "style") with "style".
  change (Js.toLowerCase "link") with "link".
  apply eq_true_iff_eq.
  rewrite bool_decide_eq_true, !orb_true_iff, !String.eqb_eq.
  unfold ignoreTags. rewrite elem_of_list_to_set, !elem_of_cons, elem_of_nil.
  rewrite (upper_is_iff_lower_is _ "SCRIPT" "script" Hascii),
          (upper_is_iff_lower_is _ "NOSCRIPT" "noscript" Hascii),
          (upper_is_iff_lower_is _ "STYLE" "style" Hascii),
          (upper_is_iff_lower_is _ "LINK" "link" Hascii) by reflexivity.
  intuition congruence.
Qed.

Lemma isIgnored_agrees_with_hasTagName_witness :
  isIgnored noSiblings (Elem mixedCaseScript []) =
    existsb (hasTagName (Elem mixedCaseScript [])) ["script"; "noscript"; "style"; "link"] /\
  isIgnored noSiblings (Elem divElement []) =
    existsb (hasTagName (Elem divElement [])) ["script"; "noscript"; "style"; "link"].
Proof.
  split.
  - apply (isIgnored_agrees_with_hasTagName noSiblings mixedCaseScript []). reflexivity.
  - apply (isIgnored_agrees_with_hasTagName noSiblings divElement []). reflexivity.
Defined.

(** Outside ASCII the two tests part: upper-casing turns the long s into
    S, so an element named with it is ignored, while lower-casing leaves
    the long s in place, so [hasTagName] does not see a script. *)
Example long_s_script_is_ignored :
  isIgnored noSiblings (Elem longSScript []) = true /\
  hasTagName (Elem longSScript []) "script" = false.
Proof. split; reflexivity. Qed.

End ShapeFacts.

(** ** Assembly *)

Module AssemblyFacts.
Import Dom Browser Snapshot Spec Examples.

Lemma appendToFirstHead_found (pre post : list Cloned) (h : ClonedElement)
    (hk : list Cloned) (child : Cloned) :
  Forall (fun k => isTag k "head" = false) pre ->
  isTag (CElem h hk) "head" = true ->
  appendToFirstHead (pre ++ CElem h hk :: post) child =
    Some (pre ++ CElem h (hk ++ [child]) :: post)%list.
Proof.
  intros Hpre Hhead. induction Hpre as [|k pre Hk _ IH]; cbn [app appendToFirstHead].
  - now rewrite Hhead.
  - rewrite IH. destruct k as [e ks| | |]; [now rewrite Hk | | |]; reflexivity.
Qed.

Lemma appendToFirstHead_none (kids : list Cloned) (child : Cloned) :
  Forall (fun k => isTag k "head" = false) kids ->
  appendToFirstHead kids child = None.
Proof.
  induction 1 as [|k kids Hk _ IH]; cbn [appendToFirstHead]; [reflexivity |].
  rewrite IH. destruct k as [e ks| | |]; [now rewrite Hk | | |]; reflexivity.
Qed.

Lemma styleElementsOf_cons (rules : list string) (rest : list (list string)) :
  styleElementsOf (rules :: rest) =
    ((if (List.length rules =? 0)%nat then []
      else [CElem (createElement "STYLE") (textContent (Js.join " " rules))])
     ++ styleElementsOf rest)%list.
Proof. now destruct rules. Qed.

(** The loop on a document whose root is an html element with a head. *)
Lemma appendStyles_found (used : list (list string)) (d : option string)
    (e h : ClonedElement) (pre post hk : list Cloned) (w : Page) :
  isTag (CElem e []) "html" = true ->
  Forall (fun k => isTag k "head" = false) pre ->
  isTag (CElem h []) "head" = true ->
  appendStyles used (mkDocument d (Some (CElem e (pre ++ CElem h hk :: post)))) w =
    (Normal (mkDocument d
               (Some (CElem e (pre ++ CElem h (hk ++ styleElementsOf used) :: post)%list))),
     w).
Proof.
  intros Hhtml Hpre Hhead. revert hk.
  induction used as [|rules used IH]; intros hk; cbn [appendStyles].
  - cbn [styleElementsOf flat_map]. now rewrite app_nil_r.
  - rewrite styleElementsOf_cons.
    destruct (List.length rules =? 0)%nat; [apply IH |].
    unfold headAppendChild. cbn [docRoot docDoctype].
    change (isTag (CElem e (pre ++ CElem h hk :: post)) "html")
      with (isTag (CElem e []) "html").
    rewrite Hhtml, (appendToFirstHead_found pre post h hk _ Hpre Hhead).
    rewrite IH. now rewrite <- app_assoc.
Qed.

(** The loop on a document without a head. *)
Lemma appendStyles_headless (used : list (list string)) (doc : Document) (w : Page) :
  (forall child, headAppendChild doc child = Throw headIsNull) ->
  appendStyles used doc w =
    (match styleElementsOf used with
     | [] => Normal doc
     | _ => Throw headIsNull
     end, w).
Proof.
  intros Hnone. induction used as [|rules used IH]; cbn [appendStyles]; [reflexivity |].
  rewrite styleElementsOf_cons.
  destruct (List.length rules =? 0)%nat; [exact IH |].
  now rewrite Hnone.
Qed.

Lemma appendStyles_nothing (used : list (list string)) (doc : Document) (w : Page) :
  styleElementsOf used = [] -> appendStyles used doc w = (Normal doc, w).
Proof.
  induction used as [|rules used IH]; cbn [appendStyles]; [reflexivity |].
  rewrite styleElementsOf_cons.
  destruct (List.length rules =? 0)%nat; [exact IH | discriminate].
Qed.

Lemma headless_throws (d : option string) (e : ClonedElement) (kids : list Cloned)
    (child : Cloned) :
  Forall (fun k => isTag k "head" = false) kids ->
  headAppendChild (mkDocument d (Some (CElem e kids))) child = Throw headIsNull.
Proof.
  intros Hkids. unfold headAppendChild. cbn [docRoot].
  destruct (isTag (CElem e kids) "html"); [| reflexivity].
  now rewrite appendToFirstHead_none.
Qed.

Section Assembly.
Context (platform : Platform).

Lemma finalize_eq (isOptimizeCss : bool) (root : Cloned)
    (sheets : list (list CSSRule)) (w : Page) :
  finalize platform isOptimizeCss (Some root) sheets w =
    match getUsedStyles platform (documentElement w) isOptimizeCss sheets with
    | Normal used =>
        appendStyles used (mkDocument (doctype w) (Some root)) (withDoctype None w)
    | Throw e => (Throw e, withDoctype None w)
    end.
Proof.
  unfold finalize, bind, createDocument, appendRoot, ret.
  cbn [documentElement withDoctype docDoctype].
  now rewrite RequestFacts.liveHead_is_never_undefined.
Qed.

(** X9: when the cloned root is an html element with a head and pruning
    answers with its lists, [finalize] answers with a document that has
    the doctype of the live document and the cloned root, in which the
    first head has got, after its own children, one style element for
    each pruned sheet that is not empty, in the order of the sheets; the
    text of each is the sheet's rule texts joined by a space. *)
Theorem finalize_appends_style_elements_to_head
    (isOptimizeCss : bool) (sheets : list (list CSSRule)) (w : Page)
    (e h : ClonedElement) (pre post hk : list Cloned) (used : list (list string)) :
  Js.toLowerCase (ctagName e) = "html" ->
  Js.toLowerCase (ctagName h) = "head" ->
  Forall (fun k => isTag k "head" = false) pre ->
  getUsedStyles platform (documentElement w) isOptimizeCss sheets = Normal used ->
  fst (finalize platform isOptimizeCss
         (Some (CElem e (pre ++ CElem h hk :: post))) sheets w) =
    Normal (mkDocument (doctype w)
              (Some (CElem e
                       (pre ++ CElem h (hk ++ styleElementsOf used) :: post)%list))).
Proof.
  intros Hhtml Hhead Hpre Hused.
  rewrite finalize_eq, Hused, appendStyles_found; try assumption.
  - reflexivity.
  - cbn [isTag]. now rewrite Hhtml.
  - cbn [isTag]. now rewrite Hhead.
Qed.

(** X10: the edges of [finalize].  Without a cloned root it throws.
    With a root that has no head among its children it throws as soon as
    one pruned sheet is not empty, and answers with the bare document
    when all are empty.  When every pruned sheet is empty the root is
    returned as it was, whatever it is.  When pruning itself throws,
    [finalize] throws what pruning threw. *)
Theorem finalize_without_root_or_head
    (isOptimizeCss : bool) (sheets : list (list CSSRule)) (w : Page) :
  (exists e, fst (finalize platform isOptimizeCss None sheets w) = Throw e) /\
  (forall used e kids,
     getUsedStyles platform (documentElement w) isOptimizeCss sheets = Normal used ->
     Forall (fun k => isTag k "head" = false) kids ->
     styleElementsOf used <> [] ->
     fst (finalize platform isOptimizeCss (Some (CElem e kids)) sheets w)
       = Throw headIsNull) /\
  (forall used root,
     getUsedStyles platform (documentElement w) isOptimizeCss sheets = Normal used ->
     styleElementsOf used = [] ->
     fst (finalize platform isOptimizeCss (Some root) sheets w)
       = Normal (mkDocument (doctype w) (Some root))) /\
  (forall err root,
     getUsedStyles platform (documentElement w) isOptimizeCss sheets = Throw err ->
     fst (finalize platform isOptimizeCss (Some root) sheets w) = Throw err).
Proof.
  split; [| split; [| split]].
  - eexists. reflexivity.
  - intros used e kids Hused Hkids Hne. rewrite finalize_eq, Hused.
    rewrite appendStyles_headless by (intros child; now apply headless_throws).
    cbn [fst]. now destruct (styleElementsOf _).
  - intros used root Hused Hnil. rewrite finalize_eq, Hused.
    now rewrite appendStyles_nothing.
  - intros err root Hused. now rewrite finalize_eq, Hused.
Qed.

End Assembly.

Lemma finalize_appends_style_elements_to_head_witness :
  fst (finalize proxyOnly false (Some clonedRoot)
         [[mkRule (Some "p") "p { color: red; }"; mkRule (Some "a") "a { }"]; []]
         sloppyPage) =
    Normal (mkDocument (Some "html")
              (Some (CElem (cloneElement htmlElement)
                       [CElem (cloneElement headElement)
                          [CElem (createElement "STYLE") [CText "p { color: red; } a { }"]];
                        clonedBody]))).
Proof.
  apply (finalize_appends_style_elements_to_head proxyOnly false
           [[mkRule (Some "p") "p { color: red; }"; mkRule (Some "a") "a { }"]; []]
           sloppyPage (cloneElement htmlElement) (cloneElement headElement)
           [] [clonedBody] [] [["p { color: red; }"; "a { }"]; []]).
  - reflexivity.
  - reflexivity.
  - constructor.
  - reflexivity.
Defined.

Lemma finalize_without_root_or_head_witness :
  fst (finalize proxyOnly false (Some headlessRoot)
         [[mkRule (Some "p") "p { color: red; }"]] sloppyPage) = Throw headIsNull /\
  fst (finalize proxyOnly false (Some headlessRoot) [[]] sloppyPage)
    = Normal (mkDocument (Some "html") (Some headlessRoot)) /\
  fst (finalize strictSelectors true (Some clonedRoot) [[bodyRule; pageRule]] sloppyPage)
    = Throw (notASelector ":first").
Proof.
  destruct (finalize_without_root_or_head proxyOnly false
              [[mkRule (Some "p") "p { color: red; }"]] sloppyPage) as (_ & Hhead & _).
  destruct (finalize_without_root_or_head proxyOnly false [[]] sloppyPage)
    as (_ & _ & Hnone & _).
  destruct (finalize_without_root_or_head strictSelectors true [[bodyRule; pageRule]]
              sloppyPage) as (_ & _ & _ & Hthrow).
  split; [| split].
  - apply (Hhead [["p { color: red; }"]] (cloneElement htmlElement) [clonedBody]).
    + reflexivity.
    + repeat constructor.
    + discriminate.
  - apply (Hnone [[]] headlessRoot); reflexivity.
  - apply (Hthrow (notASelector ":first") clonedRoot). reflexivity.
Defined.

End AssemblyFacts.

(** ** Requests, storage and the network *)

Module RequestExtras.
Import Dom Browser Snapshot DomObserver Spec Examples.

Section Extras.
Context (platform : Platform) (serializeToString : Document -> string).

(** *** The network *)

Lemma requestsFor_readable (sheet : StyleSheet) :
  cssRules sheet <> None -> requestsFor platform sheet = [].
Proof. unfold requestsFor. now destruct (cssRules sheet). Qed.

Lemma requestsFor_bound (sheet : StyleSheet) :
  (List.length (requestsFor platform sheet) <= 2)%nat.
Proof.
  unfold requestsFor. destruct (cssRules sheet); [cbn; lia |]. cbv zeta.
  destruct (fetch platform _); cbn; lia.
Qed.

Lemma collectSheets_page (remaining : list StyleSheet) (acc : list (list CSSRule))
    (w : Page) :
  exists n,
    (n <= List.length remaining)%nat /\
    snd (collectSheets platform remaining acc w) =
      fold_left (fun w url => withRequest url w)
                (concat (map (requestsFor platform) (take n remaining))) w.
Proof.
  revert acc w; induction remaining as [|sheet remaining IH]; intros acc w.
  - exists 0%nat. split; [cbn; lia | reflexivity].
  - cbn [collectSheets]. unfold bind.
    destruct (cssRules sheet) as [direct|] eqn:Hdirect.
    + cbn [ret]. destruct (IH (acc ++ [direct])%list w) as (n & Hn & ->).
      exists (S n). split; [cbn; lia |].
      cbn [take map concat]. rewrite requestsFor_readable by congruence. reflexivity.
    + rewrite (CollectorFacts.loadCss_recovers platform sheet w Hdirect).
      destruct (recoverSheet platform sheet) as [rules|].
      * destruct (IH (acc ++ [rules])%list
                    (fold_left (fun w url => withRequest url w)
                               (requestsFor platform sheet) w)) as (n & Hn & ->).
        exists (S n). split; [cbn; lia |].
        cbn [take map concat]. now rewrite fold_left_app.
      * exists 1%nat. split; [cbn; lia |].
        cbn [take map concat snd]. now rewrite app_nil_r.
Qed.

Lemma requestsFor_unrecovered (sheet : StyleSheet) :
  recoverSheet platform sheet = None ->
  requestsFor platform sheet =
    [Js.toStringOpt (href sheet); proxyUrl ++ Js.toStringOpt (href sheet)].
Proof.
  unfold recoverSheet, requestsFor. destruct (cssRules sheet); [discriminate |].
  cbv zeta. now destruct (fetch platform (Js.toStringOpt (href sheet))).
Qed.

(** The loop, when the sheets up to one can be recovered and that one
    cannot. *)
Lemma collectSheets_stops (visited rest : list StyleSheet) (bad : StyleSheet)
    (recovered acc : list (list CSSRule)) (w : Page) :
  map (recoverSheet platform) visited = map Some recovered ->
  recoverSheet platform bad = None ->
  collectSheets platform (visited ++ bad :: rest) acc w =
    (Throw fetchFailed,
     fold_left (fun w url => withRequest url w)
               (concat (map (requestsFor platform) visited) ++ requestsFor platform bad) w).
Proof.
  intros Hrec Hbad. revert recovered acc w Hrec.
  induction visited as [|sheet visited IH]; intros recovered acc w Hrec.
  - cbn [app map concat collectSheets]. unfold bind.
    destruct (cssRules bad) as [direct|] eqn:Hdirect.
    { unfold recoverSheet in Hbad. now rewrite Hdirect in Hbad. }
    now rewrite (CollectorFacts.loadCss_recovers platform bad w Hdirect), Hbad.
  - destruct recovered as [|rules recovered]; [discriminate |].
    cbn [map] in Hrec. injection Hrec as Hsheet Hrest.
    cbn [app collectSheets map concat]. rewrite <- app_assoc, fold_left_app. unfold bind.
    destruct (cssRules sheet) as [direct|] eqn:Hdirect.
    + rewrite (requestsFor_readable sheet) by congruence. cbn [fold_left ret].
      now apply (IH recovered).
    + rewrite (CollectorFacts.loadCss_recovers platform sheet w Hdirect), Hsheet.
      now apply (IH recovered).
Qed.

(** X11: the collection stops at the first sheet that no path recovers.
    It then fails with the error of the proxy fetch, having sent the
    requests of the sheets before that one, in their order, then the
    address of that sheet and the proxied address, and nothing for the
    sheets after it. *)
Theorem initializeStyleSheets_requests
    (w : Page) (visited rest : list StyleSheet) (bad : StyleSheet)
    (recovered : list (list CSSRule)) :
  styleSheets w = (visited ++ bad :: rest)%list ->
  map (recoverSheet platform) visited = map Some recovered ->
  recoverSheet platform bad = None ->
  fst (initializeStyleSheets platform w) = Throw fetchFailed /\
  requests (snd (initializeStyleSheets platform w)) =
    (requests w ++ concat (map (requestsFor platform) visited) ++
     [Js.toStringOpt (href bad); (proxyUrl ++ Js.toStringOpt (href bad))%string])%list.
Proof.
  intros Hsheets Hrec Hbad. unfold initializeStyleSheets. rewrite Hsheets.
  rewrite (collectSheets_stops visited rest bad recovered [] w Hrec Hbad).
  rewrite CollectorFacts.fold_withRequest, (requestsFor_unrecovered bad Hbad).
  now split.
Qed.

Lemma createDomElements_doctype (w : Page) :
  doctype (snd (createDomElements platform w)) = doctype w.
Proof.
  unfold createDomElements, initializeStyleSheets.
  destruct (collectSheets_page (styleSheets w) [] w) as (n & _ & Hpage).
  destruct (collectSheets platform (styleSheets w) [] w) as [r w']. cbn [snd] in Hpage.
  assert (doctype w' = doctype w) as Hd
    by (subst w'; now rewrite CollectorFacts.fold_withRequest).
  destruct (documentElement w) as [root|]; [| exact Hd].
  destruct (deepCloneWithStyles noSiblings root ∅) as [clone cache].
  now destruct r.
Qed.

(** *** Builds that end in the error document *)

Lemma rebuild_of_failed_build (optimizeImport : bool) (w w' : Page) (e : Error) :
  build platform optimizeImport w = (Throw e, w') ->
  fst (rebuild platform serializeToString optimizeImport w) =
    Normal (serializeToString (errorDocument (doctype w') e)).
Proof.
  intros Hbuild. rewrite RequestFacts.rebuild_eq. cbv zeta. cbn [fst].
  unfold builtDocument. now rewrite Hbuild.
Qed.

(** X12: in strict code, which a module is, the assignment to the
    undeclared names throws after the tree and the sheets are there, so
    no build reaches [finalize]: every request that misses the cache
    answers with an error document, which still carries the doctype.
    When the document has a root and every sheet is recovered the error
    is the ReferenceError of that assignment. *)
Theorem strict_mode_request_yields_error_document (optimizeImport : bool) (w : Page) :
  sloppyMode w = false ->
  exists e,
    fst (rebuild platform serializeToString optimizeImport w) =
      Normal (serializeToString (errorDocument (doctype w) e)) /\
    (forall root recovered,
       documentElement w = Some root ->
       map (recoverSheet platform) (styleSheets w) = map Some recovered ->
       e = rootNodeUndeclared).
Proof.
  intros Hstrict.
  pose proof (createDomElements_doctype w) as Hdoc.
  destruct (RequestFacts.leaves_createDomElements platform w) as (_ & _ & _ & _ & Hmode).
  destruct (createDomElements platform w) as [[elements|e] w1] eqn:Hcreate;
    cbn [snd] in Hdoc, Hmode.
  - exists rootNodeUndeclared. split; [| reflexivity].
    rewrite <- Hdoc. apply rebuild_of_failed_build.
    unfold build, bind. rewrite Hcreate. unfold assignUndeclared.
    now rewrite Hmode, Hstrict.
  - exists e. split.
    + rewrite <- Hdoc. apply rebuild_of_failed_build.
      unfold build, bind. now rewrite Hcreate.
    + intros root recovered Hroot Hrec. exfalso.
      unfold createDomElements, initializeStyleSheets in Hcreate.
      rewrite (CollectorFacts.collectSheets_recovers platform _ recovered [] w Hrec),
        Hroot in Hcreate.
      destruct (deepCloneWithStyles noSiblings root ∅). discriminate.
Qed.

(** X13: on a document without a root element the request answers with
    the error document of the TypeError raised by the cloner, with the
    doctype of the live document, whatever the sheets are. *)
Theorem rootless_document_yields_error_document (optimizeImport : bool) (w : Page) :
  documentElement w = None ->
  fst (rebuild platform serializeToString optimizeImport w) =
    Normal (serializeToString (errorDocument (doctype w) rootIsNull)).
Proof.
  intros Hroot. pose proof (createDomElements_doctype w) as Hdoc.
  rewrite <- Hdoc. apply rebuild_of_failed_build.
  unfold build, bind, createDomElements. rewrite Hroot.
  now destruct (initializeStyleSheets platform w).
Qed.

(** *** Storage *)

Lemma rebuild_storage (optimizeImport : bool) (w : Page) :
  exists dom,
    fst (rebuild platform serializeToString optimizeImport w) = Normal dom /\
    sessionStorage (snd (rebuild platform serializeToString optimizeImport w)) =
      if isTrue (sessionStorage w !! "allow_snapshot")
      then <["dom_snapshot" := dom]> (sessionStorage w)
      else sessionStorage w.
Proof.
  rewrite RequestFacts.rebuild_eq. cbv zeta. eexists. split; [reflexivity |].
  cbn [snd]. destruct (isTrue _); [reflexivity |].
  now destruct (RequestFacts.builtDocument_untouched platform optimizeImport w)
    as (_ & _ & Hst & _).
Qed.

Lemma domWithStyles_storage (optimizeImport : bool) (w : Page) :
  exists dom,
    fst (domWithStyles platform serializeToString optimizeImport w) = Normal dom /\
    (sessionStorage (snd (domWithStyles platform serializeToString optimizeImport w))
       = sessionStorage w \/
     sessionStorage w !! "allow_snapshot" = Some "true" /\
     sessionStorage (snd (domWithStyles platform serializeToString optimizeImport w))
       = <["dom_snapshot" := dom]> (sessionStorage w)).
Proof.
  rewrite RequestFacts.domWithStyles_eq. cbv zeta.
  destruct (isTrue (sessionStorage w !! "allow_snapshot")) eqn:Hallow.
  - apply RequestFacts.isTrue_spec in Hallow as Hflag.
    destruct (Js.truthyOpt _).
    + eexists. split; [reflexivity | now left].
    + destruct (rebuild_storage optimizeImport
                  (logged (GetItem "dom_snapshot") (logged (GetItem "allow_snapshot") w)))
        as (dom & Hdom & Hst).
      exists dom. split; [exact Hdom |]. right. split; [exact Hflag |].
      rewrite Hst.
      change (sessionStorage (logged (GetItem "dom_snapshot")
                                (logged (GetItem "allow_snapshot") w)))
        with (sessionStorage w).
      now rewrite Hallow.
  - destruct (rebuild_storage optimizeImport (logged (GetItem "allow_snapshot") w))
      as (dom & Hdom & Hst).
    exists dom. split; [exact Hdom |]. left. rewrite Hst.
    change (sessionStorage (logged (GetItem "allow_snapshot") w)) with (sessionStorage w).
    now rewrite Hallow.
Qed.


(** *** The observer and the cache together *)

(** X15: once the observer is installed on a page that supports
    mutation observers, caching is on; when its callback runs after a
    request, [allow_snapshot] is still 'true', the stored snapshot is
    gone, and the next request rebuilds instead of answering from the
    cache. *)
Theorem mutation_callback_forces_rebuild (optimizeImport : bool) (w : Page) :
  mutationObserver w = true ->
  let w1 := snd (installObserver w) in
  let w2 := snd (domWithStyles platform serializeToString optimizeImport w1) in
  let w3 := snd (mutationCallback w2) in
  sessionStorage w3 !! "allow_snapshot" = Some "true" /\
  sessionStorage w3 !! "dom_snapshot" = None /\
  domWithStyles platform serializeToString optimizeImport w3 =
    rebuild platform serializeToString optimizeImport
      (logged (GetItem "dom_snapshot") (logged (GetItem "allow_snapshot") w3)).
Proof.
  intros Hsupport w1 w2 w3.
  assert (sessionStorage w1 !! "allow_snapshot" = Some "true") as H1.
  { subst w1. rewrite ObserverFacts.installObserver_sets_flag. now rewrite Hsupport. }
  assert (sessionStorage w2 !! "allow_snapshot" = Some "true") as H2.
  { subst w2. destruct (domWithStyles_storage optimizeImport w1) as (dom & _ & [-> | [_ ->]]);
      [exact H1 | now rewrite lookup_insert_ne]. }
  assert (sessionStorage w3 = delete "dom_snapshot" (sessionStorage w2)) as H3
    by reflexivity.
  assert (sessionStorage w3 !! "allow_snapshot" = Some "true") as Hallow
    by (rewrite H3; now rewrite lookup_delete_ne).
  assert (sessionStorage w3 !! "dom_snapshot" = None) as Hgone
    by (rewrite H3; apply lookup_delete_eq).
  split; [exact Hallow | split; [exact Hgone |]].
  rewrite RequestFacts.domWithStyles_eq. cbv zeta. now rewrite Hallow, Hgone.
Qed.

(** X16: installed on a page without mutation observers, the observer
    code sets [allow_snapshot] to 'false'; every later request then
    rebuilds and leaves the storage as it is, so no snapshot is ever
    stored. *)
Theorem unsupported_observer_disables_cache (optimizeImport : bool) (w : Page) :
  mutationObserver w = false ->
  let w1 := snd (installObserver w) in
  sessionStorage w1 !! "allow_snapshot" = Some "false" /\
  observers w1 = observers w /\
  fst (domWithStyles platform serializeToString optimizeImport w1) =
    fst (rebuild platform serializeToString optimizeImport
           (logged (GetItem "allow_snapshot") w1)) /\
  sessionStorage (snd (domWithStyles platform serializeToString optimizeImport w1))
    = sessionStorage w1.
Proof.
  intros Hnone w1.
  assert (sessionStorage w1 !! "allow_snapshot" = Some "false") as Hflag.
  { subst w1. rewrite ObserverFacts.installObserver_sets_flag. now rewrite Hnone. }
  split; [exact Hflag |]. split.
  { subst w1. unfold installObserver. now rewrite Hnone. }
  rewrite RequestFacts.domWithStyles_eq. cbv zeta. rewrite Hflag.
  cbn [isTrue]. change ("false" =? "true")%string with false. cbv iota.
  split; [reflexivity |].
  destruct (rebuild_storage optimizeImport (logged (GetItem "allow_snapshot") w1))
    as (dom & _ & ->).
  change (sessionStorage (logged (GetItem "allow_snapshot") w1)) with (sessionStorage w1).
  now rewrite Hflag.
Qed.

End Extras.

(** *** Pruning only drops *)

Lemma filter_sublist {A : Type} (keep : A -> bool) (l : list A) :
  List.filter keep l `sublist_of` l.
Proof.
  induction l as [|x l IH]; cbn [List.filter]; [constructor |].
  destruct (keep x); now constructor.
Qed.

(** X17: pruning never adds, changes or reorders a rule text: at every
    position the list pruning keeps is a sublist of the list of all the
    rule texts of that sheet, which is what pruning yields when it is
    disabled. *)
Theorem pruning_only_drops_rules
    (platform : Platform) (root : option Node) (sheets : list (list CSSRule))
    (used : list (list string)) (i : nat) (kept : list string) :
  getUsedStyles platform root true sheets = Normal used ->
  used !! i = Some kept ->
  exists rules,
    sheets !! i = Some rules /\
    (exists all,
       getUsedStyles platform root false sheets = Normal all /\
       all !! i = Some (map cssText rules)) /\
    kept `sublist_of` map cssText rules.
Proof.
  unfold getUsedStyles. intros Hused Hkept.
  pose proof (ClonerFacts.usedLoop_normal platform root sheets [] used Hused) as Hacc.
  rewrite (ClonerFacts.usedLoop_on platform root sheets [] Hacc) in Hused.
  cbn [app] in Hused. injection Hused as <-.
  change (map ?f ?l) with (f <$> l) in Hkept.
  apply list_lookup_fmap_Some in Hkept as (rules & -> & Hrules).
  exists rules. split; [exact Hrules |]. split.
  - eexists. split; [apply ClonerFacts.usedLoop_off |]. cbn [app].
    change (map ?f ?l) with (f <$> l). now rewrite list_lookup_fmap, Hrules.
  - change (map ?f ?l) with (f <$> l). apply fmap_sublist, filter_sublist.
Qed.

Lemma pruning_only_drops_rules_witness :
  exists rules,
    [[bodyRule; navRule]] !! 0%nat = Some rules /\
    (exists all,
       getUsedStyles strictSelectors (Some simpleTree) false [[bodyRule; navRule]]
         = Normal all /\
       all !! 0%nat = Some (map cssText rules)) /\
    ["body { margin: 0px; }"] `sublist_of` map cssText rules.
Proof.
  apply (pruning_only_drops_rules strictSelectors (Some simpleTree)
           [[bodyRule; navRule]] [["body { margin: 0px; }"]] 0 ["body { margin: 0px; }"]);
    reflexivity.
Defined.

Lemma initializeStyleSheets_requests_witness :
  fst (initializeStyleSheets offline crossOriginPage) = Throw fetchFailed /\
  requests (snd (initializeStyleSheets offline crossOriginPage)) =
    ["https://cdn.example/site.css";
     "https://cors-anywhere.herokuapp.com/https://cdn.example/site.css"].
Proof.
  apply (initializeStyleSheets_requests offline crossOriginPage [inlineSheet] []
           crossOriginSheet [[mkRule (Some "body") "body { margin: 0px; }"]]);
    reflexivity.
Defined.

Lemma strict_mode_request_yields_error_document_witness :
  fst (rebuild offline outline false simplePage) =
    Normal (outline (errorDocument (Some "html") rootNodeUndeclared)).
Proof.
  destruct (strict_mode_request_yields_error_document offline outline false simplePage
              eq_refl) as (e & He & Hroot).
  rewrite He. now rewrite (Hroot simpleTree [] eq_refl eq_refl).
Defined.

Lemma rootless_document_yields_error_document_witness :
  fst (rebuild offline outline false rootlessPage) =
    Normal (outline (errorDocument (Some "html") rootIsNull)).
Proof.
  exact (rootless_document_yields_error_document offline outline false rootlessPage
           eq_refl).
Defined.


Lemma mutation_callback_forces_rebuild_witness :
  let w1 := snd (installObserver sloppyPage) in
  let w2 := snd (domWithStyles offline outline false w1) in
  let w3 := snd (mutationCallback w2) in
  sessionStorage w3 !! "allow_snapshot" = Some "true" /\
  sessionStorage w3 !! "dom_snapshot" = None /\
  domWithStyles offline outline false w3 =
    rebuild offline outline false
      (logged (GetItem "dom_snapshot") (logged (GetItem "allow_snapshot") w3)).
Proof. exact (mutation_callback_forces_rebuild offline outline false sloppyPage eq_refl). Defined.

Lemma unsupported_observer_disables_cache_witness :
  let w1 := snd (installObserver legacyPage) in
  sessionStorage w1 !! "allow_snapshot" = Some "false" /\
  observers w1 = observers legacyPage /\
  fst (domWithStyles offline outline false w1) =
    fst (rebuild offline outline false (logged (GetItem "allow_snapshot") w1)) /\
  sessionStorage (snd (domWithStyles offline outline false w1)) = sessionStorage w1.
Proof. exact (unsupported_observer_disables_cache offline outline false legacyPage eq_refl). Defined.

Lemma styleKey_compares_class_text_witness :
  styleKey divRed = styleKey divBlue /\ styleKey divRed <> styleKey divSwapped.
Proof.
  split.
  - apply (ShapeFacts.styleKey_compares_class_text divRed divBlue). now repeat split.
  - intros Heq.
    apply (ShapeFacts.styleKey_compares_class_text divRed divSwapped) in Heq
      as (_ & _ & Hclass).
    discriminate Hclass.
Defined.

End RequestExtras.

(** ** The build and the storage *)

Module IndependenceFacts.
Import Dom Browser Snapshot Spec Examples.

Lemma ignoresStorage_ret {A : Type} (x : A) : ignoresStorage (ret x).
Proof. now intros st a w. Qed.

Lemma ignoresStorage_throw {A : Type} (e : Error) : ignoresStorage (@throw A e).
Proof. now intros st a w. Qed.

Lemma ignoresStorage_bind {A B : Type} (m : M A) (k : A -> M B) :
  ignoresStorage m -> (forall x, ignoresStorage (k x)) -> ignoresStorage (bind m k).
Proof.
  intros Hm Hk st a w. unfold bind. rewrite Hm.
  destruct (m w) as [[x|e] w']; cbn [fst snd]; [apply Hk | reflexivity].
Qed.

Lemma ignoresStorage_tryCatch {A : Type} (m : M A) (handler : Error -> M A) :
  ignoresStorage m -> (forall e, ignoresStorage (handler e)) ->
  ignoresStorage (tryCatch m handler).
Proof.
  intros Hm Hh st a w. unfold tryCatch. rewrite Hm.
  destruct (m w) as [[x|e] w']; cbn [fst snd]; [reflexivity | apply Hh].
Qed.

Create HintDb storage.
#[local] Hint Resolve ignoresStorage_ret ignoresStorage_throw : storage.

Ltac storage :=
  repeat first
    [ solve [auto with storage]
    | apply ignoresStorage_bind
    | apply ignoresStorage_tryCatch
    | match goal with |- forall _, _ => intro end ].

Section Independence.
Context (platform : Platform) (serializeToString : Document -> string).

Lemma ignoresStorage_awaitFetch (url : string) : ignoresStorage (awaitFetch platform url).
Proof. now intros st a w. Qed.

Lemma ignoresStorage_awaitText (response : Response) :
  ignoresStorage (awaitText response).
Proof. unfold awaitText. destruct (responseText response); auto with storage. Qed.

#[local] Hint Resolve ignoresStorage_awaitFetch ignoresStorage_awaitText : storage.

Lemma ignoresStorage_loadCss (href : option string) :
  ignoresStorage (loadCss platform href).
Proof. unfold loadCss, loadCssWithCorsAnywhere. storage. Qed.

#[local] Hint Resolve ignoresStorage_loadCss : storage.

Lemma ignoresStorage_collectSheets (remaining : list StyleSheet)
    (acc : list (list CSSRule)) :
  ignoresStorage (collectSheets platform remaining acc).
Proof.
  revert acc; induction remaining as [|sheet remaining IH]; intros acc;
    cbn [collectSheets]; [auto with storage |].
  apply ignoresStorage_bind; [destruct (cssRules sheet); auto with storage |].
  intros rules. apply IH.
Qed.

Lemma ignoresStorage_createDomElements : ignoresStorage (createDomElements platform).
Proof.
  intros st a w. unfold createDomElements, initializeStyleSheets.
  change (styleSheets (withStorage st a w)) with (styleSheets w).
  change (documentElement (withStorage st a w)) with (documentElement w).
  rewrite (ignoresStorage_collectSheets (styleSheets w) [] st a w).
  destruct (collectSheets platform (styleSheets w) [] w) as [r w']. cbn [fst snd].
  destruct (documentElement w) as [root|]; [| reflexivity].
  destruct (deepCloneWithStyles noSiblings root ∅) as [clone cache].
  now destruct r.
Qed.

Lemma ignoresStorage_createDocument : ignoresStorage createDocument.
Proof. now intros st a w. Qed.

Lemma ignoresStorage_appendRoot (doc : Document) (node : option Cloned) :
  ignoresStorage (appendRoot doc node).
Proof. unfold appendRoot. destruct node; auto with storage. Qed.

Lemma ignoresStorage_assignUndeclared : ignoresStorage assignUndeclared.
Proof. intros st a w. unfold assignUndeclared. cbn. now destruct (sloppyMode w). Qed.

Lemma appendStyles_result (used : list (list string)) (doc : Document) (w w' : Page) :
  fst (appendStyles used doc w) = fst (appendStyles used doc w').
Proof.
  revert doc; induction used as [|rules used IH]; intros doc; cbn [appendStyles];
    [reflexivity |].
  destruct (List.length rules =? 0)%nat; [apply IH |].
  destruct (headAppendChild doc _); [apply IH | reflexivity].
Qed.

#[local] Hint Resolve ignoresStorage_createDomElements ignoresStorage_createDocument
  ignoresStorage_appendRoot ignoresStorage_assignUndeclared : storage.

Lemma ignoresStorage_finalize (isOptimizeCss : bool) (node : option Cloned)
    (sheets : list (list CSSRule)) :
  ignoresStorage (finalize platform isOptimizeCss node sheets).
Proof.
  unfold finalize. apply ignoresStorage_bind; [auto with storage | intros doc].
  apply ignoresStorage_bind; [auto with storage | intros doc'].
  apply ignoresStorage_bind.
  - intros st a w. now rewrite !RequestFacts.liveHead_is_never_undefined.
  - intros _ st a w.
    change (documentElement (withStorage st a w)) with (documentElement w).
    destruct (getUsedStyles platform (documentElement w) isOptimizeCss sheets)
      as [used|e]; [| reflexivity].
    rewrite (surjective_pairing (appendStyles _ doc' (withStorage st a w))).
    rewrite !RequestFacts.appendStyles_page. f_equal. apply appendStyles_result.
Qed.

#[local] Hint Resolve ignoresStorage_finalize : storage.

Lemma ignoresStorage_build (optimizeImport : bool) :
  ignoresStorage (build platform optimizeImport).
Proof. unfold build. storage. Qed.

Lemma builtDocument_ignores_storage (optimizeImport : bool)
    (st : gmap string string) (a : StorageAccess) (w : Page) :
  fst (builtDocument platform optimizeImport (withStorage st a w)) =
    fst (builtDocument platform optimizeImport w).
Proof.
  unfold builtDocument. rewrite ignoresStorage_build.
  now destruct (build platform optimizeImport w) as [[doc|e] w'].
Qed.

(** X18: what a rebuild returns does not depend on the storage: on a
    page that differs only in what the storage holds and in the calls
    logged for it, the rebuild returns the same string.  The collection
    of the sheets, the clone and the assembly read and write no entry. *)
Theorem rebuild_result_ignores_storage (optimizeImport : bool)
    (st : gmap string string) (a : StorageAccess) (w : Page) :
  ignoresStorage (build platform optimizeImport) /\
  fst (rebuild platform serializeToString optimizeImport (withStorage st a w)) =
    fst (rebuild platform serializeToString optimizeImport w).
Proof.
  split; [apply ignoresStorage_build |].
  rewrite !RequestFacts.rebuild_eq. cbv zeta. cbn [fst].
  now rewrite builtDocument_ignores_storage.
Qed.

End Independence.

End IndependenceFacts.

(** ** Requests that resolve and requests that reject *)

Module ResolutionFacts.
Import Dom Browser Snapshot Spec Examples.

Section Resolution.
Context (platform : Platform).





End Resolution.



End ResolutionFacts.
